(** * StyleHub storefront: catalogue, cart and order placement

    A shallow embedding of the commerce core of the store:
    - [src/app/core/database.py]           the SQLAlchemy models,
    - [src/app/frontend/pages/products.py] catalogue listing and [add_to_cart],
    - [src/app/frontend/pages/home.py]     the featured-products query,
    - [src/app/frontend/pages/cart.py]     [update_quantity] and [remove_item],
    - [src/app/frontend/pages/checkout.py] [checkout_page] and [place_order].

    Tables are lists of rows in primary-key (insertion) order.  A [Float]
    column holds an IEEE binary64 value, which is what a Python [float] is,
    so prices and totals are primitive floats and [*] and [+] round exactly
    as they do in the program.  An [Integer] column is a [Z].  Rows are
    rows as SQLite hands them out; what a handler computes and writes is
    checked against what the columns can hold (section "SQLite values").
    Columns that none of the modelled functions reads or writes
    (timestamps, SKU, image and option lists, billing address, notes) are
    left out of the records. *)

From Stdlib Require Import ZArith List String Ascii Bool Lia Floats DecimalString.
Import ListNotations.
Open Scope string_scope.
Open Scope list_scope.

Set Implicit Arguments.

(** ** Python values *)

(** Truth value of a [str]: only the empty string is false. *)
Definition truthy_str (s : string) : bool := negb (String.eqb s "").

(** Truth value of a [float]: false exactly when it compares equal to zero
    (so [-0.0] is false and NaN is true). *)
Definition truthy_float (x : float) : bool := negb (PrimFloat.eqb x 0%float).

(** [all(xs)] over strings. *)
Definition py_all (xs : list string) : bool := forallb truthy_str xs.

(** Conversion of an [int] operand of a mixed [float * int] product: the
    integer is rounded to the nearest binary64 value. *)
Definition float_of_int (z : Z) : float :=
  SF2Prim (binary_normalize prec emax z 0 false).

(** [sum(xs)]: accumulation from the left, starting from zero.  CPython 3.12
    and later compensate the rounding error inside [sum]; no statement below
    depends on how the accumulation is rounded. *)
Definition py_sum (xs : list float) : float :=
  fold_left PrimFloat.add xs 0%float.

(** [str.upper] on one character and on a string (ASCII letters). *)
Definition upper_ascii (c : ascii) : ascii :=
  let n := nat_of_ascii c in
  if (97 <=? n)%nat && (n <=? 122)%nat then ascii_of_nat (n - 32) else c.

Fixpoint upper (s : string) : string :=
  match s with
  | EmptyString => EmptyString
  | String c r => String (upper_ascii c) (upper r)
  end.

(** Python's [sub in s]. *)
Definition occurs_in (sub s : string) : bool :=
  match index 0 sub s with
  | Some _ => true
  | None => false
  end.

(** A fresh autoincremented primary key: one more than the largest in use. *)
Definition next_id (ids : list Z) : Z := (1 + fold_right Z.max 0 ids)%Z.

(** ** SQLite values

    What binding a Python value to a statement does.  A [float] that is NaN
    is bound as NULL, which a NOT NULL column refuses; any other [float] is
    kept, a zero of either sign as [0.0].  An [int] must fit the signed
    64-bit INTEGER, or the binding raises [OverflowError]. *)
Definition stored_real (x : float) : float :=
  if PrimFloat.eqb x 0%float then 0%float else x.

Definition sqlite_real (x : float) : option float :=
  if PrimFloat.is_nan x then None else Some (stored_real x).

Definition fits_integer (n : Z) : bool :=
  ((- 2 ^ 63 <=? n) && (n <? 2 ^ 63))%Z.

(** ** Models ([src/app/core/database.py]) *)

Module Category.
Record t := mk {
  id : Z;
  name : string;
  slug : string;
  is_active : bool
}.
End Category.

Module Product.
Record t := mk {
  id : Z;
  name : string;
  slug : string;
  description : option string;
  price : float;
  sale_price : option float;
  stock_quantity : Z;
  is_active : bool;
  is_featured : bool
}.

(** [current_price]: [self.sale_price if self.sale_price else self.price].
    A NULL sale price is [None], which is false. *)
Definition current_price (self : t) : float :=
  match sale_price self with
  | Some s => if truthy_float s then s else price self
  | None => price self
  end.
End Product.

Module CartItem.
Record t := mk {
  id : Z;
  user_id : Z;
  product_id : Z;
  quantity : Z;
  size : option string;
  color : option string
}.
End CartItem.

Module Order.
Record t := mk {
  id : Z;
  user_id : Z;
  order_number : string;
  status : string;
  total_amount : float;
  shipping_address : string;
  payment_method : string;
  payment_status : string
}.
End Order.

Module OrderItem.
Record t := mk {
  id : Z;
  order_id : Z;
  product_id : Z;
  quantity : Z;
  price : float;
  size : option string;
  color : option string
}.
End OrderItem.

(** The database: one list of rows per table; [product_categories] is the
    association table of the many-to-many relation, as
    [(product_id, category_id)] pairs. *)
Module DB.
Record t := mk {
  categories : list Category.t;
  products : list Product.t;
  product_categories : list (Z * Z);
  cart_items : list CartItem.t;
  orders : list Order.t;
  order_items : list OrderItem.t
}.
End DB.

(** What a handler shows to the user. *)
Inductive ui_event : Type :=
| notify (message : string) (type : string)
| navigate_to (url : string).

(** ** Catalogue queries ([products.py], [home.py]) *)

Module Catalog.

(** [Product.categories.contains(c)], through the association table. *)
Definition in_category (db : DB.t) (p : Product.t) (c : Category.t) : bool :=
  existsb (fun pc => Z.eqb (fst pc) (Product.id p) && Z.eqb (snd pc) (Category.id c))
          (DB.product_categories db).

(** [products_page], lines 17-32: the [products] list that is displayed.
    [category] is the optional slug of the route. *)
Definition products_page (db : DB.t) (category : option string) : list Product.t :=
  let query := filter Product.is_active (DB.products db) in
  match category with
  | Some slug =>
      if truthy_str slug then
        match find (fun c => String.eqb (Category.slug c) slug) (DB.categories db) with
        | Some current_category =>
            filter (fun p => in_category db p current_category) query
        | None => query
        end
      else query
  | None => query
  end.

(** [home_page], line 19: [featured_products]. *)
Definition featured_products (db : DB.t) : list Product.t :=
  firstn 8 (filter Product.is_featured (DB.products db)).

(** [home_page], line 20: [categories]. *)
Definition home_categories (db : DB.t) : list Category.t :=
  firstn 6 (filter Category.is_active (DB.categories db)).

End Catalog.

(** ** Cart ([cart.py], and [add_to_cart] of [products.py]) *)

Module Cart.

(** [cart_page], line 26: the cart rows of the current user. *)
Definition cart_items (db : DB.t) (user_id : Z) : list CartItem.t :=
  filter (fun c => Z.eqb (CartItem.user_id c) user_id) (DB.cart_items db).

(** [db.delete(item)]: the row with the primary key of [item] goes. *)
Definition delete_row (item : CartItem.t) (table : list CartItem.t) : list CartItem.t :=
  filter (fun r => negb (Z.eqb (CartItem.id r) (CartItem.id item))) table.

Definition with_cart_items (db : DB.t) (table : list CartItem.t) : DB.t :=
  DB.mk (DB.categories db) (DB.products db) (DB.product_categories db)
        table (DB.orders db) (DB.order_items db).

Definition set_quantity (q : Z) (r : CartItem.t) : CartItem.t :=
  CartItem.mk (CartItem.id r) (CartItem.user_id r) (CartItem.product_id r)
              q (CartItem.size r) (CartItem.color r).

(** [remove_item]. *)
Definition remove_item (item : CartItem.t) (db : DB.t) : DB.t * list ui_event :=
  (with_cart_items db (delete_row item (DB.cart_items db)),
   [notify "Item removed from cart" "positive"; navigate_to "/cart"]).

(** [update_quantity]: [item] is the row as the cart page loaded it.  A new
    quantity that does not fit the INTEGER column makes the UPDATE raise
    when it is bound: the handler ends there, with nothing written and no
    notification. *)
Definition update_quantity (item : CartItem.t) (change : Z) (db : DB.t)
  : DB.t * list ui_event :=
  let new_quantity := (CartItem.quantity item + change)%Z in
  if (new_quantity <=? 0)%Z then remove_item item db
  else if fits_integer new_quantity then
    (with_cart_items db
       (map (fun r => if Z.eqb (CartItem.id r) (CartItem.id item)
                      then set_quantity new_quantity r else r)
            (DB.cart_items db)),
     [notify "Cart updated" "positive"; navigate_to "/cart"])
  else (db, []).

(** [add_to_cart] of [products.py]: a notification, and nothing else. *)
Definition add_to_cart (product : Product.t) (quantity : Z) (db : DB.t)
  : DB.t * list ui_event :=
  (db,
   [notify ("Added " ++ NilZero.string_of_int (Z.to_int quantity) ++ " x "
              ++ Product.name product ++ " to cart!")%string "positive"]).

End Cart.

(** ** Checkout ([checkout.py]) *)

(** A [CartItem] instance as the checkout page holds it: the row together
    with the [product] relationship, loaded when the page first reads
    [item.product].  The page closes its session before any button is
    pressed, so both stay as they were read. *)
Module CartLine.
Record t := mk {
  item : CartItem.t;
  product : Product.t
}.
End CartLine.

Module Checkout.

(** [item.product]: the row of [products] with that primary key. *)
Definition load_product (db : DB.t) (item : CartItem.t) : option CartLine.t :=
  match find (fun p => Z.eqb (Product.id p) (CartItem.product_id item)) (DB.products db) with
  | Some p => Some (CartLine.mk item p)
  | None => None
  end.

Fixpoint load_products (db : DB.t) (items : list CartItem.t) : option (list CartLine.t) :=
  match items with
  | [] => Some []
  | item :: rest =>
      match load_product db item, load_products db rest with
      | Some l, Some ls => Some (l :: ls)
      | _, _ => None
      end
  end.

(** [item.product.current_price * item.quantity]. *)
Definition line_total (l : CartLine.t) : float :=
  (Product.current_price (CartLine.product l)
   * float_of_int (CartItem.quantity (CartLine.item l)))%float.

(** Line 39: [total = sum(... for item in cart_items)]. *)
Definition cart_total (cart_items : list CartLine.t) : float :=
  py_sum (map line_total cart_items).

(** What [checkout_page] renders.  Only [checkout_form] carries the
    "Place Order" button; it keeps [cart_items] and [total] for it. *)
Inductive page : Type :=
| login_prompt
| cart_is_empty
| checkout_form (cart_items : list CartLine.t) (total : float).

(** [checkout_page].  [None] is the page function raising: a cart row whose
    product is gone makes [item.product] be [None] at line 39. *)
Definition checkout_page (current_user : option Z) (db : DB.t) : option page :=
  match current_user with
  | None => Some login_prompt
  | Some user_id =>
      match Cart.cart_items db user_id with
      | [] => Some cart_is_empty
      | rows =>
          match load_products db rows with
          | Some cart_items => Some (checkout_form cart_items (cart_total cart_items))
          | None => None
          end
      end
  end.

(** [f"ORD-{uuid.uuid4().hex[:8].upper()}"]; [uuid_hex] is the 32-digit
    [hex] of the UUID that was drawn. *)
Definition make_order_number (uuid_hex : string) : string :=
  ("ORD-" ++ upper (substring 0 8 uuid_hex))%string.

(** Lines 166-175: one [OrderItem] per cart line, in cart order; each row
    gets the next primary key of the table. *)
Fixpoint add_order_items (order_id : Z) (cart_items : list CartLine.t)
         (table : list OrderItem.t) : list OrderItem.t :=
  match cart_items with
  | [] => table
  | cart_item :: rest =>
      let order_item :=
        OrderItem.mk (next_id (map OrderItem.id table))
                     order_id
                     (CartItem.product_id (CartLine.item cart_item))
                     (CartItem.quantity (CartLine.item cart_item))
                     (Product.current_price (CartLine.product cart_item))
                     (CartItem.size (CartLine.item cart_item))
                     (CartItem.color (CartLine.item cart_item)) in
      add_order_items order_id rest (table ++ [order_item])
  end.

(** Lines 178-179: [db.delete(cart_item)] for every line. *)
Definition clear_cart (cart_items : list CartLine.t) (table : list CartItem.t)
  : list CartItem.t :=
  fold_left (fun t l => Cart.delete_row (CartLine.item l) t) cart_items table.

Definition validation_notice : ui_event :=
  notify "Please fill in all required fields" "negative".

Definition error_notice : ui_event :=
  notify "Error placing order. Please try again." "negative".

Definition success_events (order_number : string) : list ui_event :=
  [notify ("Order " ++ order_number ++ " placed successfully!")%string "positive";
   navigate_to "/profile"].

(** [place_order].  [current_user] is [auth_manager.current_user] (its id)
    and [uuid_hex] the UUID drawn at line 154.  Everything between
    [try] and [db.commit()] is one transaction: when a statement raises,
    [db.rollback()] leaves the database as it was.  Two statements can
    raise on well-typed input: [auth_manager.current_user.id] when nobody
    is logged in, and [db.flush()], which inserts the order, when the
    UNIQUE constraint on [order_number] is violated or when [total] is NaN
    (NULL in the NOT NULL column [total_amount]).  The row keeps [total] as
    SQLite stores it. *)
Definition place_order (current_user : option Z) (uuid_hex : string)
           (first_name last_name email phone address city state zip_code : string)
           (payment_method : string) (cart_items : list CartLine.t) (total : float)
           (db : DB.t) : DB.t * list ui_event :=
  if negb (py_all [first_name; last_name; email; address; city; state; zip_code])
  then (db, [validation_notice])
  else
    match current_user with
    | None => (db, [error_notice])
    | Some user_id =>
        let shipping_address :=
          (address ++ ", " ++ city ++ ", " ++ state ++ " " ++ zip_code)%string in
        let order_number := make_order_number uuid_hex in
        if existsb (fun o => String.eqb (Order.order_number o) order_number) (DB.orders db)
        then (db, [error_notice])
        else
          match sqlite_real total with
          | None => (db, [error_notice])
          | Some total_amount =>
              let order :=
                Order.mk (next_id (map Order.id (DB.orders db)))
                         user_id order_number "confirmed" total_amount
                         shipping_address payment_method "paid" in
              (DB.mk (DB.categories db) (DB.products db) (DB.product_categories db)
                     (clear_cart cart_items (DB.cart_items db))
                     (DB.orders db ++ [order])
                     (add_order_items (Order.id order) cart_items (DB.order_items db)),
               success_events order_number)
          end
    end.

(** The values of the form inputs when the button is pressed. *)
Record form := mk_form {
  first_name : string;
  last_name : string;
  email : string;
  phone : string;
  address : string;
  city : string;
  state : string;
  zip_code : string;
  payment_method : string
}.

(** The "Place Order" button, lines 122-128: present on the checkout form
    only, it calls [place_order] with the page's [cart_items] and
    [total * 1.08].  [None]: the page has no such button. *)
Definition with_tax (total : float) : float :=
  (total * 0x1.147ae147ae148p+0)%float.   (* the binary64 literal 1.08 *)

Definition press_place_order (pg : page) (f : form)
           (current_user : option Z) (uuid_hex : string) (db : DB.t)
  : option (DB.t * list ui_event) :=
  match pg with
  | checkout_form cart_items total =>
      Some (place_order current_user uuid_hex
              (first_name f) (last_name f) (email f) (phone f)
              (address f) (city f) (state f) (zip_code f) (payment_method f)
              cart_items (with_tax total) db)
  | _ => None
  end.

(** Opening [/checkout] on the database as it is now and pressing "Place
    Order" at once: [checkout_page], then the button when the page has one.
    A page without the button leaves the database alone and shows nothing
    more. *)
Definition checkout (f : form) (current_user : option Z) (uuid_hex : string)
           (db : DB.t) : option (page * (DB.t * list ui_event)) :=
  match checkout_page current_user db with
  | Some pg =>
      Some (pg, match press_place_order pg f current_user uuid_hex db with
                | Some r => r
                | None => (db, [])
                end)
  | None => None
  end.

(** The computation of the page (lines 39 and 127) read over rows of
    [order_items]: the frozen [price] stands where the page reads
    [product.current_price], and the sum is multiplied by 1.08. *)
Definition order_item_total (oi : OrderItem.t) : float :=
  (OrderItem.price oi * float_of_int (OrderItem.quantity oi))%float.

Definition charged_total (items : list OrderItem.t) : float :=
  with_tax (py_sum (map order_item_total items)).

(** The pricing computation in the words of the specification (its
    [orderTotals]; the code has no such function): the subtotal is the sum
    of the line totals, the tax is the subtotal times the rate of 8%,
    shipping is 0, and the grand total is subtotal + tax + shipping.  The
    arithmetic is that of the code, binary64. *)
Definition tax_rate : float := 0x1.47ae147ae147bp-4.   (* the binary64 literal 0.08 *)
Definition shipping : float := 0%float.

Definition order_totals (items : list OrderItem.t) : float :=
  let subtotal := py_sum (map order_item_total items) in
  let tax := (subtotal * tax_rate)%float in
  (subtotal + tax + shipping)%float.

(** [order.order_items]: the rows that reference the order. *)
Definition order_items_of (db : DB.t) (o : Order.t) : list OrderItem.t :=
  filter (fun oi => Z.eqb (OrderItem.order_id oi) (Order.id o)) (DB.order_items db).

End Checkout.

(** ** The store as a transition system

    One step is one handler run to completion, or an edit of the catalogue
    made outside these pages (administration, seeding): the latter may
    replace the [products] table by any other, which covers every change
    of a product's price, sale price, stock or flags. *)

Module Store.

Definition with_products (db : DB.t) (products : list Product.t) : DB.t :=
  DB.mk (DB.categories db) products (DB.product_categories db)
        (DB.cart_items db) (DB.orders db) (DB.order_items db).

Inductive step (db : DB.t) : DB.t -> Prop :=
| step_place_order : forall db0 user0 pg f current_user uuid_hex r,
    (* the page was rendered earlier, on whatever the database was then *)
    Checkout.checkout_page user0 db0 = Some pg ->
    Checkout.press_place_order pg f current_user uuid_hex db = Some r ->
    step db (fst r)
| step_update_quantity : forall item change,
    step db (fst (Cart.update_quantity item change db))
| step_remove_item : forall item,
    step db (fst (Cart.remove_item item db))
| step_add_to_cart : forall product quantity,
    step db (fst (Cart.add_to_cart product quantity db))
| step_edit_products : forall products,
    step db (with_products db products).

Inductive reachable (db0 : DB.t) : DB.t -> Prop :=
| reach_refl : reachable db0 db0
| reach_step : forall db db', reachable db0 db -> step db db' -> reachable db0 db'.

End Store.

(** ** Invariants and outcomes *)

Module Invariants.

Import Checkout.

(** [place_order] either leaves the database as it is, or commits: the
    catalogue is kept, one order with a fresh primary key is appended, its
    items are appended, and the rows of the cart lines are deleted. *)
Inductive outcome (current_user : option Z) (uuid_hex : string)
          (address city state zip_code payment_method : string)
          (cart_items : list CartLine.t) (total : float) (db : DB.t)
  : DB.t * list ui_event -> Prop :=
| rejected : forall events,
    outcome current_user uuid_hex address city state zip_code payment_method
            cart_items total db (db, events)
| committed : forall user_id,
    current_user = Some user_id ->
    existsb (fun o => String.eqb (Order.order_number o) (make_order_number uuid_hex))
            (DB.orders db) = false ->
    PrimFloat.is_nan total = false ->
    let order :=
      Order.mk (next_id (map Order.id (DB.orders db))) user_id
               (make_order_number uuid_hex) "confirmed" (stored_real total)
               (address ++ ", " ++ city ++ ", " ++ state ++ " " ++ zip_code)%string
               payment_method "paid" in
    outcome current_user uuid_hex address city state zip_code payment_method
            cart_items total db
            (DB.mk (DB.categories db) (DB.products db) (DB.product_categories db)
                   (clear_cart cart_items (DB.cart_items db))
                   (DB.orders db ++ [order])
                   (add_order_items (Order.id order) cart_items (DB.order_items db)),
             success_events (make_order_number uuid_hex)).

(** Every order's [total_amount] is what SQLite keeps of the total charged
    for its items. *)
Definition totals_agree (db : DB.t) : Prop :=
  forall o, In o (DB.orders db) ->
            sqlite_real (charged_total (order_items_of db o))
            = Some (Order.total_amount o).

(** Every item belongs to an order of the table. *)
Definition items_have_orders (db : DB.t) : Prop :=
  forall oi, In oi (DB.order_items db) ->
             In (OrderItem.order_id oi) (map Order.id (DB.orders db)).

Definition consistent (db : DB.t) : Prop :=
  totals_agree db /\ items_have_orders db.

(** The order numbers in use. *)
Definition order_numbers (db : DB.t) : list string :=
  map Order.order_number (DB.orders db).

(** A cart table [after] that has no more rows than [before], and no row
    with an id that [before] did not have. *)
Definition shrinks (before after : list CartItem.t) : Prop :=
  List.length after <= List.length before /\
  forall r, In r after -> In (CartItem.id r) (map CartItem.id before).

(** The labels of the seven required inputs (lines 57-67) and the names of
    the matching parameters of [place_order]. *)
Definition required_labels : list string :=
  ["First Name"; "Last Name"; "Email"; "Address"; "City"; "State"; "ZIP Code";
   "first_name"; "last_name"; "email"; "address"; "city"; "state"; "zip_code"].

End Invariants.

(** ** A worked session

    User 7 has two lines in the cart: two pairs of jeans (list price 50, on
    sale at 40, a single pair in stock) in size M, colour Blue, and one
    T-shirt (list price 20). *)

Module Session.

Import Checkout.

Definition jeans : Product.t :=
  Product.mk 1 "Denim Skinny Jeans" "denim-skinny-jeans" None
             50%float (Some 40%float) 1 true true.

Definition tshirt : Product.t :=
  Product.mk 2 "Classic White T-Shirt" "classic-white-tshirt" None
             20%float None 100 true true.

Definition jeans_row : CartItem.t := CartItem.mk 1 7 1 2 (Some "M") (Some "Blue").
Definition tshirt_row : CartItem.t := CartItem.mk 2 7 2 1 None None.

Definition db0 : DB.t :=
  DB.mk [] [jeans; tshirt] [] [jeans_row; tshirt_row] [] [].

(** Seven required fields filled in, no phone number. *)
Definition ada : form :=
  mk_form "Ada" "Lovelace" "ada@example.org" "" "12 St James Square"
          "London" "LDN" "SW1Y 4JH" "Credit Card".

Definition uuid1 : string := "3f2a9c1be4d04a6f8b7c5d2e1a0f9e8d".
Definition uuid2 : string := "3f2a9c1b00000000aaaaaaaaaaaaaaaa".

Definition cart0 : list CartLine.t :=
  [CartLine.mk jeans_row jeans; CartLine.mk tshirt_row tshirt].

(** The page of [/checkout] for user 7. *)
Definition page0 : page := checkout_form cart0 100%float.

(** The database after "Place Order" is pressed on that page. *)
Definition placed : DB.t * list ui_event :=
  place_order (Some 7%Z) uuid1
              (first_name ada) (last_name ada) (email ada) (phone ada)
              (address ada) (city ada) (state ada) (zip_code ada)
              (payment_method ada) cart0 (with_tax 100%float) db0.

Definition db1 : DB.t := fst placed.

(** Later, the jeans go back to full price, and up. *)
Definition jeans_repriced : Product.t :=
  Product.mk 1 "Denim Skinny Jeans" "denim-skinny-jeans" None
             80%float None 1 true true.

Definition db2 : DB.t := Store.with_products db1 [jeans_repriced; tshirt].

Definition order1 : Order.t :=
  Order.mk 1 7 "ORD-3F2A9C1B" "confirmed" (with_tax 100%float)
           "12 St James Square, London, LDN SW1Y 4JH" "Credit Card" "paid".

(** *** Further data *)

(** A product whose sale price is a mark-up: list price 10, sale price 20. *)
Definition marked_up : Product.t :=
  Product.mk 1 "Jeans" "jeans" None 10%float (Some 20%float) 5 true false.

(** A product on sale: list price 50, sale price 40. *)
Definition on_sale : Product.t :=
  Product.mk 2 "Denim Skinny Jeans" "denim-skinny-jeans" None
             50%float (Some 40%float) 75 true true.

(** The cart row of the jeans before "+" was pressed on the cart page: one
    pair, which the stock covers. *)
Definition jeans_row_before : CartItem.t :=
  CartItem.mk 1 7 1 1 (Some "M") (Some "Blue").

Definition db_before : DB.t :=
  DB.mk [] [jeans; tshirt] [] [jeans_row_before; tshirt_row] [] [].

(** User 7 with nothing in the cart. *)
Definition empty_cart_db : DB.t :=
  DB.mk [] [jeans; tshirt] [] [] [] [].

(** The row that adding two pairs of jeans in M, Blue, would make. *)
Definition two_jeans : CartItem.t := CartItem.mk 1 7 1 2 (Some "M") (Some "Blue").

(** The cart as it would be had the row been added. *)
Definition one_row_db : DB.t :=
  DB.mk [] [jeans; tshirt] [] [two_jeans] [] [].

(** A category of the catalogue. *)
Definition women : Category.t := Category.mk 1 "Women" "women" true.

(** A featured product that has been deactivated. *)
Definition discontinued : Product.t :=
  Product.mk 3 "Summer Floral Dress" "summer-floral-dress" None
             60%float None 0 false true.

Definition catalog_db : DB.t :=
  DB.mk [women] [jeans; discontinued] [(3, 1)%Z] [] [] [].

End Session.

(** * The rest of the pages

    What follows covers functions of the same files that the order workflow
    does not go through: the search filter and the product page of
    [products.py], the session handlers of [profile.py] with the
    [AuthManager] of [auth.py], and the image selection of [assets.py]. *)

(** ** More Python values *)

(** [str.lower], on ASCII text: the strings of the model are byte strings,
    and the letters of other alphabets are outside it. *)
Definition lower_ascii (c : ascii) : ascii :=
  let n := nat_of_ascii c in
  if (65 <=? n)%nat && (n <=? 90)%nat then ascii_of_nat (n + 32) else c.

Fixpoint lower (s : string) : string :=
  match s with
  | EmptyString => EmptyString
  | String c r => String (lower_ascii c) (lower r)
  end.

(** [str(n)] of an [int]. *)
Definition str_of_int (n : Z) : string := NilZero.string_of_int (Z.to_int n).

(** [s.replace(a, b)] for one-character [a] and [b]. *)
Fixpoint replace_char (a b : ascii) (s : string) : string :=
  match s with
  | EmptyString => EmptyString
  | String c r => String (if Ascii.eqb c a then b else c) (replace_char a b r)
  end.

(** [urllib.parse.quote(s)]: letters, digits and [_.-~/] are kept, every
    other byte becomes [%XX] in upper-case hexadecimal. *)
Definition quote_safe (c : ascii) : bool :=
  let n := nat_of_ascii c in
  ((65 <=? n)%nat && (n <=? 90)%nat) || ((97 <=? n)%nat && (n <=? 122)%nat)
  || ((48 <=? n)%nat && (n <=? 57)%nat)
  || existsb (Ascii.eqb c) ["_"; "."; "-"; "~"; "/"]%char.

Definition hex_digit (n : nat) : ascii :=
  nth n (list_ascii_of_string "0123456789ABCDEF") "0"%char.

Fixpoint quote (s : string) : string :=
  match s with
  | EmptyString => EmptyString
  | String c r =>
      if quote_safe c then String c (quote r)
      else String "%" (String (hex_digit (nat_of_ascii c / 16))
                         (String (hex_digit (nat_of_ascii c mod 16)) (quote r)))
  end.

(** [any(word in s for word in words)]. *)
Definition any_word_in (words : list string) (s : string) : bool :=
  existsb (fun word => occurs_in word s) words.

(** ** Search and product page ([products.py]) *)

Module Products.

(** The condition of the comprehension of [filter_products]:
    [term.lower() in p.name.lower() or
     (p.description and term.lower() in p.description.lower())]. *)
Definition matches (search_term : string) (p : Product.t) : bool :=
  occurs_in (lower search_term) (lower (Product.name p))
  || match Product.description p with
     | Some d => truthy_str d && occurs_in (lower search_term) (lower d)
     | None => false
     end.

(** [filter_products]: the [filtered] list ... *)
Definition filtered (search_term : string) (all_products : list Product.t)
  : list Product.t :=
  if negb (truthy_str search_term) then all_products
  else filter (matches search_term) all_products.

(** ... and the text of the notification that reports it. *)
Definition filter_products (search_term : string) (all_products : list Product.t)
  : string :=
  ("Found " ++ str_of_int (Z.of_nat (List.length (filtered search_term all_products)))
            ++ " products")%string.

(** [filter_by_category]: where the category select navigates to. *)
Definition filter_by_category (category_name : string) (categories : list Category.t)
  : list ui_event :=
  if String.eqb category_name "All" then [navigate_to "/products"]
  else
    match find (fun cat => String.eqb (Category.name cat) category_name) categories with
    | Some category => [navigate_to ("/products/" ++ Category.slug category)%string]
    | None => []
    end.

(** What [product_detail_page] renders: the "not found" page, or the
    product with the price in large type, the struck-through list price
    when there is one, the stock label, and whether the "Add to Cart" and
    "Buy Now" buttons are there (the disabled "Out of Stock" button
    otherwise). *)
Inductive detail_page : Type :=
| product_not_found
| product_detail (product : Product.t) (shown_price : float)
                 (struck_price : option float) (stock_label : string)
                 (can_buy : bool).

(** [product_detail_page], lines 111-186. *)
Definition product_detail_page (db : DB.t) (product_id : Z) : detail_page :=
  match find (fun p => Z.eqb (Product.id p) product_id) (DB.products db) with
  | None => product_not_found
  | Some product =>
      let in_stock := (0 <? Product.stock_quantity product)%Z in
      let stock_label :=
        if in_stock
        then (str_of_int (Product.stock_quantity product) ++ " in stock")%string
        else "Out of stock" in
      match Product.sale_price product with
      | Some s =>
          if truthy_float s
          then product_detail product s (Some (Product.price product)) stock_label in_stock
          else product_detail product (Product.price product) None stock_label in_stock
      | None => product_detail product (Product.price product) None stock_label in_stock
      end
  end.

(** [buy_now]. *)
Definition buy_now (product : Product.t) : list ui_event := [navigate_to "/checkout"].

End Products.

(** ** Sessions ([auth.py], [profile.py]) *)

Module User.
Record t := mk {
  id : Z;
  username : string;
  email : string;
  full_name : option string;
  hashed_password : string;
  is_active : bool;
  is_admin : bool
}.
End User.

(** [AuthManager]: the state of an instance is its [current_user]. *)
Module AuthManager.

Record t := mk { current_user : option User.t }.

(** [__init__]. *)
Definition init : t := mk None.

Definition is_authenticated (self : t) : bool :=
  match current_user self with
  | Some _ => true
  | None => false
  end.

(** The truth value of [self.current_user and self.current_user.is_admin]. *)
Definition is_admin (self : t) : bool :=
  match current_user self with
  | Some user => User.is_admin user
  | None => false
  end.

Definition login (self : t) (user : User.t) : t := mk (Some user).

Definition logout (self : t) : t := mk None.

End AuthManager.

Module Profile.

(** Every page module makes an [AuthManager] of its own when it is
    imported ([auth_manager = AuthManager()] in [app/main.py], [cart.py],
    [checkout.py] and [profile.py]): four instances, four states. *)
Record managers := mk_managers {
  main_auth : AuthManager.t;
  cart_auth : AuthManager.t;
  checkout_auth : AuthManager.t;
  profile_auth : AuthManager.t
}.

(** The managers when the process has started. *)
Definition started : managers :=
  mk_managers AuthManager.init AuthManager.init AuthManager.init AuthManager.init.

Definition with_profile_auth (m : managers) (a : AuthManager.t) : managers :=
  mk_managers (main_auth m) (cart_auth m) (checkout_auth m) a.

(** The user that [login] makes up, lines 114-122. *)
Definition demo_user : User.t :=
  User.mk 1 "demo" "demo@example.com" (Some "Demo User") "hashed_password" true false.

(** [login] of [profile.py] (closing the dialog is not an event here). *)
Definition login (username password : string) (m : managers)
  : managers * list ui_event :=
  if String.eqb username "demo" && String.eqb password "password"
  then (with_profile_auth m (AuthManager.login (profile_auth m) demo_user),
        [notify "Logged in successfully!" "positive"; navigate_to "/profile"])
  else (m, [notify "Invalid credentials" "negative"]).

(** [logout] of [profile.py]. *)
Definition logout (m : managers) : managers * list ui_event :=
  (with_profile_auth m (AuthManager.logout (profile_auth m)),
   [notify "Logged out successfully" "positive"; navigate_to "/"]).

(** [update_profile]: a notification, and nothing else. *)
Definition update_profile (username email full_name : string) (db : DB.t)
  : DB.t * list ui_event :=
  (db, [notify "Profile updated successfully!" "positive"]).

(** [auth_manager.current_user.id] as the pages read it, [None] when
    [is_authenticated()] is false. *)
Definition user_id_of (a : AuthManager.t) : option Z :=
  option_map User.id (AuthManager.current_user a).

(** The session handlers of the pages, as steps on the managers. *)
Inductive step (m : managers) : managers -> Prop :=
| step_login : forall username password, step m (fst (login username password m))
| step_logout : step m (fst (logout m)).

Inductive reachable : managers -> Prop :=
| reach_started : reachable started
| reach_step : forall m m', reachable m -> step m m' -> reachable m'.

End Profile.

(** ** Image selection ([assets.py]) *)

Module Image.
Record t := mk {
  primary : string;
  fallback : string;
  alt : string;
  category : string;
  size : string
}.
End Image.

Module Assets.

(** The class table: a category, its keywords and its sizes. *)
Definition FASHION_CATEGORIES : list (string * (list string * list string)) :=
  [("hero",
    (["fashion"; "shopping"; "style"; "clothing"; "retail"; "boutique"],
     ["1920x800"; "1200x600"; "800x400"]));
   ("women",
    (["women fashion"; "female model"; "women clothing"; "dress"; "blouse"],
     ["600x800"; "400x600"; "300x400"]));
   ("men",
    (["men fashion"; "male model"; "men clothing"; "shirt"; "suit"],
     ["600x800"; "400x600"; "300x400"]));
   ("kids",
    (["kids fashion"; "children clothing"; "kids style"; "child model"],
     ["600x600"; "400x400"; "300x300"]));
   ("accessories",
    (["fashion accessories"; "jewelry"; "bags"; "watches"; "sunglasses"],
     ["600x600"; "400x400"; "300x300"]));
   ("shoes",
    (["shoes"; "sneakers"; "boots"; "heels"; "footwear"],
     ["600x400"; "400x300"; "300x200"]));
   ("lifestyle",
    (["lifestyle"; "modern living"; "fashion lifestyle"; "shopping experience"],
     ["800x600"; "600x400"; "400x300"]));
   ("sale",
    (["sale"; "discount"; "shopping"; "bargain"; "special offer"],
     ["600x400"; "400x300"; "300x200"]))].

(** [category in self.FASHION_CATEGORIES]. *)
Definition has_category (category : string) : bool :=
  existsb (fun e => String.eqb (fst e) category) FASHION_CATEGORIES.

(** [self.FASHION_CATEGORIES[category]]; [None] is [KeyError]. *)
Definition category_data (category : string) : option (list string * list string) :=
  option_map snd (find (fun e => String.eqb (fst e) category) FASHION_CATEGORIES).

(** The category that [get_fashion_images] goes on with, lines 58-59. *)
Definition resolve (category : string) : string :=
  if has_category category then category else "hero".

Section Hashes.

(** [hashlib.md5(s.encode()).hexdigest()] and the built-in [hash], which
    is seeded per process: both are taken as given. *)
Variable md5_hexdigest : string -> string.
Variable py_hash : string -> Z.

(** The body of the loop of [get_fashion_images] for index [i]; [None] is
    the loop raising ([keywords[i % 0]] or [sizes[0]] of an empty list). *)
Definition fashion_image (category : string) (keywords sizes : list string) (i : nat)
  : option Image.t :=
  match keywords, sizes with
  | _ :: _, size :: _ =>
      let keyword := nth (i mod List.length keywords) keywords "" in
      let seed :=
        substring 0 8
          (md5_hexdigest (category ++ "_" ++ keyword ++ "_" ++ str_of_int (Z.of_nat i))%string) in
      Some (Image.mk
              ("https://source.unsplash.com/" ++ size ++ "/?" ++ quote keyword
                 ++ "&sig=" ++ seed)%string
              ("https://picsum.photos/" ++ replace_char "x" "/" size ++ "?random="
                 ++ str_of_int (Z.abs (py_hash seed) mod 10000))%string
              ("Fashion " ++ keyword ++ " image")%string
              category
              size)
  | _, _ => None
  end.

(** [for i in range(count)], collecting the images; one failing turn fails
    the whole call. *)
Fixpoint collect (f : nat -> option Image.t) (indices : list nat) : option (list Image.t) :=
  match indices with
  | [] => Some []
  | i :: rest =>
      match f i, collect f rest with
      | Some img, Some imgs => Some (img :: imgs)
      | _, _ => None
      end
  end.

(** [get_fashion_images]. *)
Definition get_fashion_images (category : string) (count : Z) : option (list Image.t) :=
  let category := resolve category in
  match category_data category with
  | Some (keywords, sizes) =>
      collect (fashion_image category keywords sizes) (seq 0 (Z.to_nat count))
  | None => None
  end.

(** [get_product_images]. *)
Definition get_product_images (product_name category : string) (count : Z)
  : option (list Image.t) :=
  let product_lower := lower product_name in
  let img_category :=
    if any_word_in ["dress"; "blouse"; "skirt"; "women"] product_lower then "women"
    else if any_word_in ["shirt"; "suit"; "men"; "male"] product_lower then "men"
    else if any_word_in ["kids"; "child"; "children"] product_lower then "kids"
    else if any_word_in ["bag"; "jewelry"; "watch"; "accessory"] product_lower
         then "accessories"
    else if any_word_in ["shoe"; "sneaker"; "boot"; "heel"] product_lower then "shoes"
    else category in
  get_fashion_images img_category count.

(** [get_hero_images]. *)
Definition get_hero_images (count : Z) : option (list Image.t) :=
  get_fashion_images "hero" count.

(** [get_placeholder_image]. *)
Definition get_placeholder_image (size : string) : Image.t :=
  Image.mk ("https://via.placeholder.com/" ++ size ++ "/f0f0f0/666666?text=Fashion+Item")%string
           ("https://picsum.photos/" ++ replace_char "x" "/" size ++ "?random=1")%string
           "Fashion item placeholder" "placeholder" size.

(** [get_category_image]: [images[0] if images else
    self.get_placeholder_image()]. *)
Definition get_category_image (category_name : string) : option Image.t :=
  match get_fashion_images (lower category_name) 1 with
  | Some (image :: _) => Some image
  | Some [] => Some (get_placeholder_image "400x300")
  | None => None
  end.

End Hashes.

End Assets.

(** ** More example data *)

Module Examples.

(** A catalogue with descriptions, for the search box. *)
Definition hoodie : Product.t :=
  Product.mk 5 "Kids Rainbow Hoodie" "kids-rainbow-hoodie"
             (Some "Colorful hoodie that kids will love")
             30%float None 50 true false.

Definition bag : Product.t :=
  Product.mk 6 "Leather Crossbody Bag" "leather-crossbody-bag"
             (Some "Stylish leather crossbody bag for everyday use")
             80%float None 0 true false.

Definition shelf : list Product.t := [Session.jeans; hoodie; bag].

Definition shelf_db : DB.t := DB.mk [] shelf [] [] [] [].

(** A cart row of user 7 that points at a product that is gone. *)
Definition orphan_row : CartItem.t := CartItem.mk 3 7 99 1 None None.

Definition orphan_db : DB.t :=
  DB.mk [] [Session.jeans; Session.tshirt] [] [Session.jeans_row; orphan_row] [] [].





(** One scarf at 13.00 in the cart of user 7, the checkout page for it and
    the database after "Place Order". *)
Definition scarf : Product.t :=
  Product.mk 7 "Wool Scarf" "wool-scarf" None 13%float None 20 true false.

Definition scarf_row : CartItem.t := CartItem.mk 5 7 7 1 None None.

Definition scarf_db : DB.t := DB.mk [] [scarf] [] [scarf_row] [] [].

Definition scarf_page : Checkout.page :=
  Checkout.checkout_form [CartLine.mk scarf_row scarf] 13%float.

Definition scarf_placed : DB.t * list ui_event :=
  Checkout.place_order (Some 7%Z) Session.uuid1 "Ada" "Lovelace" "ada@example.org" ""
                       "12 St James Square" "London" "LDN" "SW1Y 4JH" "Credit Card"
                       [CartLine.mk scarf_row scarf] (Checkout.with_tax 13%float) scarf_db.

Definition scarf_order : Order.t :=
  Order.mk 1 7 "ORD-3F2A9C1B" "confirmed" (Checkout.with_tax 13%float)
           "12 St James Square, London, LDN SW1Y 4JH" "Credit Card" "paid".

(** The page of the worked session pressed after the cart has been
    emptied on the cart page. *)
Definition stale_placed : DB.t * list ui_event :=
  Checkout.place_order (Some 7%Z) Session.uuid1 "Ada" "Lovelace" "ada@example.org" ""
                       "12 St James Square" "London" "LDN" "SW1Y 4JH" "Credit Card"
                       Session.cart0 (Checkout.with_tax 100%float) Session.empty_cart_db.







(** Stand-ins for the two hash functions. *)
Definition md5_stub (s : string) : string := "0123456789abcdef0123456789abcdef".
Definition hash_stub (s : string) : Z := (-123456789)%Z.

End Examples.

(** * Properties *)

(** ** The worked session, evaluated *)

Module SessionFacts.

Import Checkout Session.

Lemma page0_rendered : checkout_page (Some 7%Z) db0 = Some page0.
Proof. vm_compute. reflexivity. Qed.

Lemma db1_contents :
  db1 = DB.mk [] [jeans; tshirt] [] [] [order1]
              [OrderItem.mk 1 1 1 2 40%float (Some "M") (Some "Blue");
               OrderItem.mk 2 1 2 1 20%float None None].
Proof. vm_compute. reflexivity. Qed.

Lemma db1_reachable : Store.reachable db0 db1.
Proof.
  eapply Store.reach_step; [apply Store.reach_refl|].
  apply (@Store.step_place_order db0 db0 (Some 7%Z) page0 ada (Some 7%Z) uuid1 placed).
  - exact page0_rendered.
  - reflexivity.
Qed.

Lemma db2_reachable : Store.reachable db0 db2.
Proof.
  eapply Store.reach_step; [exact db1_reachable|].
  apply Store.step_edit_products.
Qed.

End SessionFacts.

(** ** Pricing *)

Module PricingFacts.

(** C4, as stated, fails: with list price 10 and sale price 20 the sale
    price is not valid (it exceeds the list price), yet [current_price]
    returns 20, which is not at most the list price. *)
Lemma current_price_above_list_price :
  Product.current_price Session.marked_up = 20%float /\
  PrimFloat.leb (Product.current_price Session.marked_up) (Product.price Session.marked_up) = false.
Proof. split; reflexivity. Qed.

(** C4, amended: [current_price] is the sale price whenever a sale price is
    set and is not zero -- whether or not it is positive or at most the list
    price -- and the list price otherwise.  Hence it is at most the list
    price for every product whose non-zero sale price, if any, is at most
    the list price (the list price being a number, that is, comparable
    with itself). *)
Theorem current_price_sale_or_list (p : Product.t) :
  (forall s, Product.sale_price p = Some s -> PrimFloat.eqb s 0 = false ->
             Product.current_price p = s) /\
  (Product.sale_price p = None -> Product.current_price p = Product.price p) /\
  (forall s, Product.sale_price p = Some s -> PrimFloat.eqb s 0 = true ->
             Product.current_price p = Product.price p) /\
  (PrimFloat.leb (Product.price p) (Product.price p) = true ->
   (forall s, Product.sale_price p = Some s -> PrimFloat.eqb s 0 = false ->
              PrimFloat.leb s (Product.price p) = true) ->
   PrimFloat.leb (Product.current_price p) (Product.price p) = true).
Proof.
  unfold Product.current_price, truthy_float.
  destruct (Product.sale_price p) as [s|].
  - destruct (PrimFloat.eqb s 0) eqn:Hz; cbn; repeat split;
      intros;
      repeat match goal with
             | E : Some _ = Some _ |- _ => inversion E; subst; clear E
             end;
      try discriminate; try congruence; auto.
  - repeat split; try discriminate. intros H _. exact H.
Qed.

Lemma current_price_sale_or_list_witness :
  Product.current_price Session.on_sale = 40%float /\
  PrimFloat.leb (Product.current_price Session.on_sale) (Product.price Session.on_sale) = true.
Proof.
  destruct (current_price_sale_or_list Session.on_sale) as (Hsale & _ & _ & Hle).
  split.
  - apply Hsale; reflexivity.
  - apply Hle.
    + reflexivity.
    + intros s Hs _. inversion Hs; subst. reflexivity.
Defined.

End PricingFacts.

(** ** Order placement: what [place_order] does to the database *)

Module PlaceOrderFacts.

Import Checkout Invariants.

Lemma next_id_above (ids : list Z) (i : Z) : In i ids -> (i < next_id ids)%Z.
Proof.
  unfold next_id. induction ids as [|j ids IH]; cbn [In fold_right]; [contradiction|].
  intros [->|Hin]; [|specialize (IH Hin)]; lia.
Qed.

Lemma next_id_fresh (ids : list Z) : ~ In (next_id ids) ids.
Proof. intros Hin. apply next_id_above in Hin. lia. Qed.

(** The loop of lines 166-175 appends to the table: one row per cart line,
    in cart order, all of them for the order at hand, each carrying the
    line's quantity and the product's current price. *)
Lemma add_order_items_appends (order_id : Z) (cart_items : list CartLine.t) :
  forall table, exists rows,
    add_order_items order_id cart_items table = table ++ rows /\
    Forall (fun oi => OrderItem.order_id oi = order_id) rows /\
    map order_item_total rows = map line_total cart_items /\
    map OrderItem.price rows
      = map (fun l => Product.current_price (CartLine.product l)) cart_items /\
    map OrderItem.quantity rows
      = map (fun l => CartItem.quantity (CartLine.item l)) cart_items.
Proof.
  induction cart_items as [|l rest IH]; intros table; cbn.
  - exists []. rewrite app_nil_r. repeat split; constructor.
  - match goal with
    | |- context [table ++ [?x]] => set (row := x)
    end.
    destruct (IH (table ++ [row])) as (rows & Heq & Hall & Htot & Hprice & Hqty).
    exists (row :: rows). rewrite Heq, <- app_assoc. cbn.
    repeat split.
    + constructor; [reflexivity | assumption].
    + now rewrite Htot.
    + now rewrite Hprice.
    + now rewrite Hqty.
Qed.

Lemma place_order_outcome current_user uuid_hex first_name last_name email phone
      address city state zip_code payment_method cart_items total db :
  outcome current_user uuid_hex address city state zip_code payment_method
          cart_items total db
          (place_order current_user uuid_hex first_name last_name email phone
                       address city state zip_code payment_method
                       cart_items total db).
Proof.
  unfold place_order, sqlite_real.
  destruct (negb _); [constructor|].
  destruct current_user as [user_id|]; [|constructor].
  destruct (existsb _ _) eqn:Hdup; [constructor|].
  destruct (PrimFloat.is_nan total) eqn:Hnan; [constructor|].
  now apply committed.
Qed.

Lemma truthy_str_false (s : string) : truthy_str s = false <-> s = "".
Proof.
  unfold truthy_str. rewrite negb_false_iff. apply String.eqb_eq.
Qed.

(** [not all(fields)] holds exactly when one of the fields is [""]. *)
Lemma py_all_false (fields : list string) :
  py_all fields = false <-> In "" fields.
Proof.
  unfold py_all. induction fields as [|s rest IH]; cbn.
  - split; [discriminate | contradiction].
  - rewrite andb_false_iff, IH, truthy_str_false. intuition congruence.
Qed.


(** Validation comes first, before a session is opened: with one of the
    seven fields empty nothing but the notice happens. *)
Lemma place_order_rejects current_user uuid_hex first_name last_name email phone
      address city state zip_code payment_method cart_items total db :
  In "" [first_name; last_name; email; address; city; state; zip_code] ->
  place_order current_user uuid_hex first_name last_name email phone
              address city state zip_code payment_method cart_items total db
  = (db, [validation_notice]).
Proof.
  intros Hmissing. apply py_all_false in Hmissing.
  unfold place_order. now rewrite Hmissing.
Qed.

(** A run that passes validation, with a user logged in, an order number
    not yet in use and a total that is a number, commits. *)
Lemma place_order_commits user_id uuid_hex first_name last_name email phone
      address city state zip_code payment_method cart_items total db :
  py_all [first_name; last_name; email; address; city; state; zip_code] = true ->
  existsb (fun o => String.eqb (Order.order_number o) (make_order_number uuid_hex))
          (DB.orders db) = false ->
  PrimFloat.is_nan total = false ->
  place_order (Some user_id) uuid_hex first_name last_name email phone
              address city state zip_code payment_method cart_items total db
  = (DB.mk (DB.categories db) (DB.products db) (DB.product_categories db)
           (clear_cart cart_items (DB.cart_items db))
           (DB.orders db
              ++ [Order.mk (next_id (map Order.id (DB.orders db))) user_id
                           (make_order_number uuid_hex) "confirmed" (stored_real total)
                           (address ++ ", " ++ city ++ ", " ++ state ++ " " ++ zip_code)%string
                           payment_method "paid"])
           (add_order_items (next_id (map Order.id (DB.orders db))) cart_items
                            (DB.order_items db)),
     success_events (make_order_number uuid_hex)).
Proof.
  intros Hall Hfresh Hnum. unfold place_order, sqlite_real.
  rewrite Hall, Hfresh, Hnum. reflexivity.
Qed.

(** No path of [place_order] writes to the catalogue. *)
Lemma place_order_keeps_products current_user uuid_hex first_name last_name email
      phone address city state zip_code payment_method cart_items total db :
  DB.products
    (fst (place_order current_user uuid_hex first_name last_name email phone
                      address city state zip_code payment_method
                      cart_items total db))
  = DB.products db.
Proof.
  destruct (place_order_outcome current_user uuid_hex first_name last_name email
              phone address city state zip_code payment_method cart_items total db);
    reflexivity.
Qed.

End PlaceOrderFacts.

(** ** The stored total of an order and its frozen items *)

Module OrderTotals.

Import Checkout Invariants PlaceOrderFacts.

Lemma consistent_same_orders (db db' : DB.t) :
  DB.orders db' = DB.orders db ->
  DB.order_items db' = DB.order_items db ->
  consistent db -> consistent db'.
Proof.
  unfold consistent, totals_agree, items_have_orders, order_items_of.
  intros -> ->. trivial.
Qed.

Lemma consistent_initial (db : DB.t) :
  DB.orders db = [] -> DB.order_items db = [] -> consistent db.
Proof.
  unfold consistent, totals_agree, items_have_orders.
  intros -> ->. split; intros ? [].
Qed.

Lemma filter_none {A} (f : A -> bool) (l : list A) :
  Forall (fun x => f x = false) l -> filter f l = [].
Proof.
  induction 1 as [|x l Hx _ IH]; cbn; [reflexivity|]. now rewrite Hx.
Qed.

Lemma filter_all {A} (f : A -> bool) (l : list A) :
  Forall (fun x => f x = true) l -> filter f l = l.
Proof.
  induction 1 as [|x l Hx _ IH]; cbn; [reflexivity|]. now rewrite Hx, IH.
Qed.

(** The page hands the button the total of the very lines it hands it. *)
Lemma checkout_form_total user db cart_items total :
  checkout_page user db = Some (checkout_form cart_items total) ->
  total = cart_total cart_items.
Proof.
  unfold checkout_page. destruct user as [user_id|]; [|discriminate].
  destruct (Cart.cart_items db user_id) as [|c rows]; [discriminate|].
  destruct (load_products db (c :: rows)); [|discriminate].
  intros E. now inversion E.
Qed.

(** A commit keeps the database consistent, provided the total it stores is
    the taxed total of the lines it stores. *)
Lemma place_order_consistent current_user uuid_hex first_name last_name email phone
      address city state zip_code payment_method cart_items db :
  consistent db ->
  consistent
    (fst (place_order current_user uuid_hex first_name last_name email phone
                      address city state zip_code payment_method
                      cart_items (with_tax (cart_total cart_items)) db)).
Proof.
  intros [Htot Hown].
  destruct (place_order_outcome current_user uuid_hex first_name last_name email
              phone address city state zip_code payment_method cart_items
              (with_tax (cart_total cart_items)) db)
    as [events | user_id _ _ Hnum order]; [now split|].
  subst order. cbn [fst Order.id].
  set (new_id := next_id (map Order.id (DB.orders db))).
  destruct (add_order_items_appends new_id cart_items (DB.order_items db))
    as (rows & Heq & Hrows & Hsum & _ & _).
  assert (Hold : forall oi, In oi (DB.order_items db) ->
                            OrderItem.order_id oi <> new_id).
  { intros oi Hin E. apply Hown in Hin. rewrite E in Hin.
    exact (next_id_fresh _ Hin). }
  split.
  - intros o Hin. unfold order_items_of. cbn [DB.order_items DB.orders] in *.
    rewrite Heq, filter_app.
    apply in_app_or in Hin. destruct Hin as [Hin | [<- | []]].
    + (* an order that was there before: the new rows are not its own *)
      rewrite (filter_none _ (l := rows)), app_nil_r; [exact (Htot o Hin)|].
      eapply Forall_impl; [|exact Hrows]. cbn beta. intros oi ->.
      apply Z.eqb_neq. intros E.
      apply (next_id_fresh (map Order.id (DB.orders db))).
      fold new_id. rewrite E. now apply in_map.
    + (* the new order: exactly the new rows *)
      cbn [Order.id Order.total_amount].
      rewrite (filter_none _ (l := DB.order_items db)), (filter_all _ (l := rows)).
      * cbn [app]. unfold charged_total, sqlite_real. rewrite Hsum.
        fold (cart_total cart_items). now rewrite Hnum.
      * eapply Forall_impl; [|exact Hrows]. cbn beta. intros oi ->. apply Z.eqb_refl.
      * apply Forall_forall. intros oi Hoi. apply Z.eqb_neq. now apply Hold.
  - intros oi Hin. cbn [DB.order_items DB.orders] in *.
    rewrite Heq in Hin. rewrite map_app, in_app_iff.
    apply in_app_or in Hin. destruct Hin as [Hin | Hin].
    + left. now apply Hown.
    + right. left. rewrite Forall_forall in Hrows. now rewrite (Hrows oi Hin).
Qed.

Lemma step_consistent (db db' : DB.t) :
  Store.step db db' -> consistent db -> consistent db'.
Proof.
  intros Hstep Hc. destruct Hstep as [db0 user0 pg f cu uuid r Hpage Hpress | | | | ].
  - destruct pg as [| |cart_items total]; try discriminate.
    apply checkout_form_total in Hpage. subst total.
    cbn in Hpress. inversion Hpress; subst r.
    now apply place_order_consistent.
  - unfold Cart.update_quantity, Cart.remove_item.
    destruct (_ <=? 0)%Z; [|destruct (fits_integer _)];
      (eapply consistent_same_orders; [| |exact Hc]); reflexivity.
  - (eapply consistent_same_orders; [| |exact Hc]); reflexivity.
  - exact Hc.
  - (eapply consistent_same_orders; [| |exact Hc]); reflexivity.
Qed.

Lemma reachable_consistent (db0 db : DB.t) :
  consistent db0 -> Store.reachable db0 db -> consistent db.
Proof.
  intros H0. induction 1 as [|db db' _ IH Hstep]; [assumption|].
  exact (step_consistent Hstep IH).
Qed.

End OrderTotals.

Module OrderTotalClaim.

Import Checkout Invariants OrderTotals.

(** C1, as stated, fails: user 7 orders one scarf at 13.00.  The order is
    stored with the total the page computed, 13 * 1.08, which is
    14.040000000000001 in binary64, while the pricing computation over the
    order's one item -- subtotal 13, plus the tax 13 * 0.08, plus shipping
    0 -- is 14.039999999999999. *)
Lemma taxed_total_is_not_subtotal_plus_tax :
  checkout_page (Some 7%Z) Examples.scarf_db = Some Examples.scarf_page /\
  press_place_order Examples.scarf_page Session.ada (Some 7%Z) Session.uuid1
                    Examples.scarf_db
  = Some Examples.scarf_placed /\
  DB.orders (fst Examples.scarf_placed) = [Examples.scarf_order] /\
  order_items_of (fst Examples.scarf_placed) Examples.scarf_order
  = [OrderItem.mk 1 1 7 1 13%float None None] /\
  Order.total_amount Examples.scarf_order = 0x1.c147ae147ae15p+3%float /\
  order_totals (order_items_of (fst Examples.scarf_placed) Examples.scarf_order)
  = 0x1.c147ae147ae14p+3%float /\
  PrimFloat.eqb (Order.total_amount Examples.scarf_order)
                (order_totals (order_items_of (fst Examples.scarf_placed)
                                              Examples.scarf_order))
  = false.
Proof. vm_compute. repeat split. Qed.

(** C1, amended.  In every database reached from one without orders -- by
    placing orders from checkout pages, by cart operations and by any
    later edit of the products (prices included) -- the [total_amount]
    stored with each order is the sum, over the order's own items, of
    frozen price times quantity, multiplied by 1.08 in binary64 (the 8%
    tax as one factor, no shipping charge), as SQLite stores that number
    (a zero as 0.0; it is never NaN).  Editing the products changes
    neither the order nor its items. *)
Theorem total_amount_is_pricing_of_frozen_items (db0 db : DB.t) :
  DB.orders db0 = [] -> DB.order_items db0 = [] ->
  Store.reachable db0 db ->
  forall o, In o (DB.orders db) ->
    let subtotal :=
      py_sum (map (fun oi => (OrderItem.price oi
                              * float_of_int (OrderItem.quantity oi))%float)
                  (order_items_of db o)) in
    let taxed := (subtotal * 0x1.147ae147ae148p+0)%float in
    PrimFloat.is_nan taxed = false /\
    Order.total_amount o = (if PrimFloat.eqb taxed 0 then 0%float else taxed) /\
    forall products,
      In o (DB.orders (Store.with_products db products)) /\
      order_items_of (Store.with_products db products) o = order_items_of db o.
Proof.
  intros Ho Hi Hreach o Hin subtotal taxed.
  pose proof (reachable_consistent (consistent_initial db0 Ho Hi) Hreach) as [Htot _].
  specialize (Htot o Hin). unfold sqlite_real in Htot.
  change (charged_total (order_items_of db o)) with taxed in Htot.
  destruct (PrimFloat.is_nan taxed); [discriminate|].
  inversion Htot as [Heq]. split; [reflexivity|]. split; [reflexivity|].
  intros products. split; [exact Hin | reflexivity].
Qed.

Lemma total_amount_is_pricing_of_frozen_items_witness :
  In Session.order1 (DB.orders Session.db2) /\
  Order.total_amount Session.order1 = 108%float.
Proof.
  assert (Hin : In Session.order1 (DB.orders Session.db2)).
  { unfold Session.db2. cbn [Store.with_products DB.orders].
    rewrite SessionFacts.db1_contents. left. reflexivity. }
  split; [exact Hin|].
  destruct (total_amount_is_pricing_of_frozen_items
              (db0 := Session.db0) eq_refl eq_refl
              SessionFacts.db2_reachable Session.order1 Hin) as (_ & Htotal & _).
  rewrite Htotal. vm_compute. reflexivity.
Defined.

End OrderTotalClaim.

(** ** Stock *)

Module StockClaims.

Import Checkout Invariants PlaceOrderFacts.

(** C2, as stated, fails: the cart asks for two pairs of jeans of which one
    is in stock (the "+" button of the cart page got it there), and the
    order is placed all the same -- success notification, one order row and
    both item rows. *)
Lemma order_beyond_stock_is_placed :
  fst (Cart.update_quantity Session.jeans_row_before 1 Session.db_before) = Session.db0 /\
  checkout_page (Some 7%Z) Session.db0 = Some Session.page0 /\
  (Product.stock_quantity Session.jeans
   <? CartItem.quantity Session.jeans_row)%Z = true /\
  press_place_order Session.page0 Session.ada (Some 7%Z) Session.uuid1 Session.db0
  = Some (Session.db1,
          [notify "Order ORD-3F2A9C1B placed successfully!" "positive";
           navigate_to "/profile"]) /\
  DB.orders Session.db1 = [Session.order1] /\
  map OrderItem.quantity (DB.order_items Session.db1) = [2%Z; 1%Z].
Proof. vm_compute. repeat split. Qed.

(** C2, amended: order placement looks at neither stock nor the active flag.
    Whatever the cart lines are -- quantities above the stock and inactive
    products included -- a submission with the seven required fields filled
    in, a user logged in, an order number not in use and a total that is a
    number (not NaN) is committed: the order row and one item row per
    line, with the line's quantity.  And no run of [place_order],
    committed or not, changes the products table, so no stock is
    decremented for any line. *)
Theorem place_order_checks_no_stock current_user uuid_hex first_name last_name
        email phone address city state zip_code payment_method cart_items total db :
  let r := place_order current_user uuid_hex first_name last_name email phone
                       address city state zip_code payment_method
                       cart_items total db in
  DB.products (fst r) = DB.products db /\
  (forall user_id,
      current_user = Some user_id ->
      py_all [first_name; last_name; email; address; city; state; zip_code] = true ->
      existsb (fun o => String.eqb (Order.order_number o) (make_order_number uuid_hex))
              (DB.orders db) = false ->
      PrimFloat.is_nan total = false ->
      snd r = success_events (make_order_number uuid_hex) /\
      (exists order rows,
          DB.orders (fst r) = DB.orders db ++ [order] /\
          DB.order_items (fst r) = DB.order_items db ++ rows /\
          Forall (fun oi => OrderItem.order_id oi = Order.id order) rows /\
          map OrderItem.quantity rows
          = map (fun l => CartItem.quantity (CartLine.item l)) cart_items)).
Proof.
  intros r. split; [apply place_order_keeps_products|].
  intros user_id -> Hall Hfresh Hnum. subst r.
  rewrite (place_order_commits _ _ _ _ _ phone _ _ _ _ payment_method
                               cart_items total _ Hall Hfresh Hnum).
  cbn [fst snd DB.orders DB.order_items]. split; [reflexivity|].
  destruct (add_order_items_appends (next_id (map Order.id (DB.orders db)))
                                    cart_items (DB.order_items db))
    as (rows & Heq & Hrows & _ & _ & Hqty).
  eexists. exists rows. repeat split; eassumption.
Qed.

Lemma place_order_checks_no_stock_witness :
  DB.products Session.db1 = DB.products Session.db0 /\
  snd Session.placed = success_events "ORD-3F2A9C1B".
Proof.
  destruct (place_order_checks_no_stock (Some 7%Z) Session.uuid1
              (first_name Session.ada) (last_name Session.ada) (email Session.ada)
              (phone Session.ada) (address Session.ada) (city Session.ada)
              (state Session.ada) (zip_code Session.ada)
              (payment_method Session.ada) Session.cart0
              (with_tax 100%float) Session.db0) as [Hprod Hcommit].
  split; [exact Hprod|].
  destruct (Hcommit 7%Z eq_refl eq_refl eq_refl eq_refl) as [Hev _]. exact Hev.
Defined.

(** C3, as stated, fails: the order of two pairs of jeans and one T-shirt
    is placed, and the stock of the two products is what it was, 1 and 100,
    not 1 - 2 and 100 - 1. *)
Lemma placed_order_leaves_stock :
  snd Session.placed = success_events "ORD-3F2A9C1B" /\
  map OrderItem.quantity (DB.order_items Session.db1) = [2%Z; 1%Z] /\
  map Product.stock_quantity (DB.products Session.db0) = [1%Z; 100%Z] /\
  map Product.stock_quantity (DB.products Session.db1) = [1%Z; 100%Z].
Proof. vm_compute. repeat split. Qed.

(** C3, amended: nothing on these pages changes a product's stock.  Order
    placement, successful or not, leaves the products table as it is (there
    is no decrement), and so do the cart operations: changing a quantity,
    removing an item and "add to cart". *)
Theorem stock_is_never_written :
  (forall current_user uuid_hex first_name last_name email phone address city
          state zip_code payment_method cart_items total db,
      DB.products
        (fst (place_order current_user uuid_hex first_name last_name email phone
                          address city state zip_code payment_method
                          cart_items total db))
      = DB.products db) /\
  (forall item change db,
      DB.products (fst (Cart.update_quantity item change db)) = DB.products db) /\
  (forall item db,
      DB.products (fst (Cart.remove_item item db)) = DB.products db) /\
  (forall product quantity db,
      DB.products (fst (Cart.add_to_cart product quantity db)) = DB.products db).
Proof.
  repeat split.
  - intros. apply place_order_keeps_products.
  - intros item change db. unfold Cart.update_quantity.
    destruct (_ <=? 0)%Z; [|destruct (fits_integer _)]; reflexivity.
Qed.

End StockClaims.

(** ** Cart *)

Module CartClaims.

(** C5 on the code.  [add_to_cart] takes a product and a quantity (no size,
    no colour), tells the user "Added 2 x Denim Skinny Jeans to cart!" and
    writes nothing: the cart of the user is as empty after it as before.
    The second half of the round trip does hold: on a cart that has the
    row, taking its quantity down to zero deletes it. *)
Theorem add_to_cart_adds_no_row :
  Cart.add_to_cart Session.jeans 2 Session.empty_cart_db
  = (Session.empty_cart_db,
     [notify "Added 2 x Denim Skinny Jeans to cart!" "positive"]) /\
  Cart.cart_items (fst (Cart.add_to_cart Session.jeans 2 Session.empty_cart_db)) 7 = [] /\
  Cart.cart_items Session.one_row_db 7 = [Session.two_jeans] /\
  Cart.cart_items (fst (Cart.update_quantity Session.two_jeans (-2) Session.one_row_db)) 7 = [].
Proof. repeat split. Qed.

End CartClaims.

(** ** Checkout preconditions *)

Module CheckoutClaims.

Import Checkout Invariants PlaceOrderFacts.

(** C6, as stated, fails: the empty-cart check is made when [/checkout] is
    rendered, and [place_order] has none.  User 7 opens the checkout page
    with two lines in the cart, removes both on the cart page, and then
    presses "Place Order" on the page that is still open: the cart is
    empty, and the order is committed with its two items. *)
Lemma stale_page_orders_on_empty_cart :
  checkout_page (Some 7%Z) Session.db0 = Some Session.page0 /\
  Store.reachable Session.db0 Session.empty_cart_db /\
  Cart.cart_items Session.empty_cart_db 7 = [] /\
  press_place_order Session.page0 Session.ada (Some 7%Z) Session.uuid1
                    Session.empty_cart_db
  = Some Examples.stale_placed /\
  snd Examples.stale_placed
  = [notify "Order ORD-3F2A9C1B placed successfully!" "positive";
     navigate_to "/profile"] /\
  DB.orders (fst Examples.stale_placed) = [Session.order1] /\
  map OrderItem.product_id (DB.order_items (fst Examples.stale_placed)) = [1%Z; 2%Z].
Proof.
  split; [vm_compute; reflexivity|]. split.
  - change Session.empty_cart_db
      with (fst (Cart.remove_item Session.tshirt_row
                   (fst (Cart.remove_item Session.jeans_row Session.db0)))).
    eapply Store.reach_step;
      [eapply Store.reach_step; [apply Store.reach_refl|]|];
      apply Store.step_remove_item.
  - vm_compute. repeat split.
Qed.

(** C6, amended.  For a logged-in user whose cart is empty when
    [/checkout] is rendered, the page is "Your cart is empty", which has
    no "Place Order" button; going through checkout therefore leaves the
    database as it is: no row is added to [orders] or [order_items]. *)
Theorem empty_cart_places_no_order (f : form) (user_id : Z) (uuid_hex : string)
        (db : DB.t) :
  Cart.cart_items db user_id = [] ->
  checkout_page (Some user_id) db = Some cart_is_empty /\
  press_place_order cart_is_empty f (Some user_id) uuid_hex db = None /\
  checkout f (Some user_id) uuid_hex db = Some (cart_is_empty, (db, [])).
Proof.
  intros Hempty. unfold checkout, checkout_page. rewrite Hempty. cbn.
  repeat split.
Qed.

Lemma empty_cart_places_no_order_witness :
  checkout Session.ada (Some 7%Z) Session.uuid2 Session.db1
  = Some (cart_is_empty, (Session.db1, [])).
Proof.
  refine (proj2 (proj2 (empty_cart_places_no_order
                          Session.ada 7 Session.uuid2 Session.db1 _))).
  rewrite SessionFacts.db1_contents. reflexivity.
Defined.

End CheckoutClaims.

Module ValidationClaims.

Import Checkout Invariants PlaceOrderFacts.

(** C7, as stated, fails: a submission without a first name and one without
    a ZIP code are answered by one and the same notification, whose text
    names none of the required fields. *)
Lemma validation_notice_lists_no_field :
  place_order (Some 7%Z) Session.uuid1 "" "Lovelace" "ada@example.org" ""
              "12 St James Square" "London" "LDN" "SW1Y 4JH" "Credit Card"
              Session.cart0 (with_tax 100%float) Session.db0
  = (Session.db0, [notify "Please fill in all required fields" "negative"]) /\
  place_order (Some 7%Z) Session.uuid1 "Ada" "Lovelace" "ada@example.org" ""
              "12 St James Square" "London" "LDN" "" "Credit Card"
              Session.cart0 (with_tax 100%float) Session.db0
  = (Session.db0, [notify "Please fill in all required fields" "negative"]) /\
  existsb (fun label => occurs_in label "Please fill in all required fields")
          required_labels = false.
Proof. vm_compute. repeat split. Qed.

(** C7, amended: when one of the seven required fields (first name, last
    name, e-mail, address, city, state, ZIP code) is empty, [place_order]
    answers with the fixed notification "Please fill in all required fields"
    -- which does not say which fields are missing -- and returns before it
    opens a database session: the database, with its orders, order items,
    products and cart rows, is exactly what it was. *)
Theorem missing_field_is_rejected_before_any_write current_user uuid_hex
        first_name last_name email phone address city state zip_code
        payment_method cart_items total db :
  In "" [first_name; last_name; email; address; city; state; zip_code] ->
  place_order current_user uuid_hex first_name last_name email phone
              address city state zip_code payment_method cart_items total db
  = (db, [notify "Please fill in all required fields" "negative"]).
Proof. apply place_order_rejects. Qed.

Lemma missing_field_is_rejected_before_any_write_witness :
  place_order (Some 7%Z) Session.uuid1 "Ada" "Lovelace" "" ""
              "12 St James Square" "London" "LDN" "SW1Y 4JH" "Credit Card"
              Session.cart0 (with_tax 100%float) Session.db0
  = (Session.db0, [notify "Please fill in all required fields" "negative"]).
Proof.
  apply missing_field_is_rejected_before_any_write.
  cbn. right. right. left. reflexivity.
Defined.




End ValidationClaims.

(** ** Catalogue visibility *)

Module CatalogClaims.

(** The listing of [products_page], with or without a category, shows
    active products only. *)
Lemma products_page_active_only (db : DB.t) (category : option string) (p : Product.t) :
  In p (Catalog.products_page db category) -> Product.is_active p = true.
Proof.
  unfold Catalog.products_page.
  assert (Hq : In p (filter Product.is_active (DB.products db)) ->
               Product.is_active p = true)
    by (intros H; now apply filter_In in H).
  destruct category as [slug|]; [|exact Hq].
  destruct (truthy_str slug); [|exact Hq].
  destruct (find _ _); [|exact Hq].
  intros H. apply filter_In in H. now apply Hq.
Qed.

(** C8 on the code.  The featured-products query of the home page filters
    on [is_featured] alone: the deactivated dress is listed there, while
    both listings of [products_page] leave it out. *)
Theorem featured_products_lists_inactive :
  Catalog.featured_products Session.catalog_db = [Session.jeans; Session.discontinued] /\
  Product.is_active Session.discontinued = false /\
  Catalog.products_page Session.catalog_db None = [Session.jeans] /\
  Catalog.products_page Session.catalog_db (Some "women") = [].
Proof. repeat split. Qed.

End CatalogClaims.

(** ** Order numbers *)

Module OrderNumberClaims.

Import Checkout Invariants PlaceOrderFacts.

Lemma number_in_use (n : string) (db : DB.t) :
  existsb (fun o => String.eqb (Order.order_number o) n) (DB.orders db) = true
  <-> In n (order_numbers db).
Proof.
  unfold order_numbers. rewrite existsb_exists, in_map_iff.
  split; intros (o & H1 & H2); exists o.
  - apply String.eqb_eq in H2. now split.
  - split; [assumption|]. now apply String.eqb_eq.
Qed.

Lemma NoDup_append_one {A} (l : list A) (x : A) :
  NoDup l -> ~ In x l -> NoDup (l ++ [x]).
Proof.
  induction 1 as [|y l Hy Hl IH]; cbn; intros Hx.
  - constructor; [intros []|constructor].
  - constructor.
    + rewrite in_app_iff. cbn. intuition congruence.
    + apply IH. intuition.
Qed.

Lemma place_order_keeps_numbers_unique current_user uuid_hex first_name last_name
      email phone address city state zip_code payment_method cart_items total db :
  NoDup (order_numbers db) ->
  NoDup (order_numbers
           (fst (place_order current_user uuid_hex first_name last_name email phone
                             address city state zip_code payment_method
                             cart_items total db))).
Proof.
  intros Hnd.
  destruct (place_order_outcome current_user uuid_hex first_name last_name email
              phone address city state zip_code payment_method cart_items total db)
    as [events | user_id _ Hfresh _ order]; [assumption|].
  subst order. unfold order_numbers.
  cbn [fst DB.orders]. rewrite map_app. cbn [map Order.order_number].
  apply NoDup_append_one; [assumption|].
  intros Hin. apply number_in_use in Hin. congruence.
Qed.

Lemma step_keeps_numbers_unique (db db' : DB.t) :
  Store.step db db' -> NoDup (order_numbers db) -> NoDup (order_numbers db').
Proof.
  intros Hstep Hnd. destruct Hstep as [db0 user0 pg f cu uuid r _ Hpress | | | | ].
  - destruct pg as [| |cart_items total]; try discriminate.
    cbn in Hpress. inversion Hpress; subst r.
    now apply place_order_keeps_numbers_unique.
  - unfold Cart.update_quantity, Cart.remove_item.
    destruct (_ <=? 0)%Z; [|destruct (fits_integer _)]; exact Hnd.
  - exact Hnd.
  - exact Hnd.
  - exact Hnd.
Qed.

(** A number in use stops [place_order]: nothing is written and the run
    ends with a notice -- the validation notice if a field is missing,
    the general error otherwise. *)
Lemma place_order_collision current_user uuid_hex first_name last_name email phone
      address city state zip_code payment_method cart_items total db :
  In (make_order_number uuid_hex) (order_numbers db) ->
  let r := place_order current_user uuid_hex first_name last_name email phone
                       address city state zip_code payment_method
                       cart_items total db in
  fst r = db /\ (snd r = [validation_notice] \/ snd r = [error_notice]).
Proof.
  intros Hin. apply number_in_use in Hin. unfold place_order.
  destruct (negb _); [now auto|].
  destruct current_user; [|now auto].
  rewrite Hin. now auto.
Qed.

(** C9, as stated, fails: a second UUID with the same first eight digits
    gives the number of the order already stored; [place_order] does not
    draw again, it writes nothing and tells the user "Error placing order.
    Please try again." *)
Lemma duplicate_number_is_not_retried :
  make_order_number Session.uuid1 = "ORD-3F2A9C1B" /\
  make_order_number Session.uuid2 = "ORD-3F2A9C1B" /\
  order_numbers Session.db1 = ["ORD-3F2A9C1B"] /\
  place_order (Some 7%Z) Session.uuid2
              "Ada" "Lovelace" "ada@example.org" "" "12 St James Square"
              "London" "LDN" "SW1Y 4JH" "Credit Card"
              Session.cart0 (with_tax 100%float) Session.db1
  = (Session.db1, [notify "Error placing order. Please try again." "negative"]).
Proof. vm_compute. repeat split. Qed.

(** C9, amended: the order numbers of the stored orders are pairwise
    distinct in every database reached from one without orders, because a
    run of [place_order] whose number is already in use is refused (the
    UNIQUE constraint fails the flush): it writes nothing, and ends with a
    notice to the user -- the general error notice, unless validation has
    already turned the submission away.  There is no second draw and no
    retry. *)
Theorem duplicate_number_is_refused (db0 db : DB.t) :
  DB.orders db0 = [] ->
  Store.reachable db0 db ->
  NoDup (order_numbers db) /\
  forall current_user uuid_hex first_name last_name email phone address city
         state zip_code payment_method cart_items total,
    In (make_order_number uuid_hex) (order_numbers db) ->
    let r := place_order current_user uuid_hex first_name last_name email phone
                         address city state zip_code payment_method
                         cart_items total db in
    fst r = db /\ (snd r = [validation_notice] \/ snd r = [error_notice]).
Proof.
  intros Hinit Hreach. split.
  - induction Hreach as [|db db' _ IH Hstep].
    + unfold order_numbers. rewrite Hinit. constructor.
    + exact (step_keeps_numbers_unique Hstep IH).
  - intros. now apply place_order_collision.
Qed.

Lemma duplicate_number_is_refused_witness :
  NoDup (order_numbers Session.db1) /\
  fst (place_order (Some 7%Z) Session.uuid2
                   "Ada" "Lovelace" "ada@example.org" "" "12 St James Square"
                   "London" "LDN" "SW1Y 4JH" "Credit Card"
                   Session.cart0 (with_tax 100%float) Session.db1)
  = Session.db1.
Proof.
  destruct (duplicate_number_is_refused (db0 := Session.db0) eq_refl
                                        SessionFacts.db1_reachable) as [Hnd Hrefuse].
  split; [exact Hnd|].
  refine (proj1 (Hrefuse (Some 7%Z) Session.uuid2
                         "Ada" "Lovelace" "ada@example.org" "" "12 St James Square"
                         "London" "LDN" "SW1Y 4JH" "Credit Card"
                         Session.cart0 (with_tax 100%float) _)).
  rewrite SessionFacts.db1_contents. left. reflexivity.
Defined.

End OrderNumberClaims.

(** * Further properties *)

(** ** Cart handlers *)

Module CartFacts.

Lemma delete_row_spec (item r : CartItem.t) (table : list CartItem.t) :
  In r (Cart.delete_row item table)
  <-> In r table /\ CartItem.id r <> CartItem.id item.
Proof.
  unfold Cart.delete_row. rewrite filter_In, negb_true_iff, Z.eqb_neq. reflexivity.
Qed.

Lemma delete_row_twice (item : CartItem.t) (table : list CartItem.t) :
  Cart.delete_row item (Cart.delete_row item table) = Cart.delete_row item table.
Proof.
  unfold Cart.delete_row. induction table as [|r table IH]; cbn; [reflexivity|].
  destruct (negb _) eqn:E; cbn; [rewrite E|]; now rewrite IH.
Qed.

Lemma delete_row_absent (item : CartItem.t) (table : list CartItem.t) :
  (forall r, In r table -> CartItem.id r <> CartItem.id item) ->
  Cart.delete_row item table = table.
Proof.
  unfold Cart.delete_row. induction table as [|r table IH]; cbn; intros H; [reflexivity|].
  destruct (Z.eqb_spec (CartItem.id r) (CartItem.id item)) as [E|_]; cbn.
  - exfalso. apply (H r); auto.
  - f_equal. apply IH. intros r' Hr'. apply H. now right.
Qed.

(** X1: [remove_item] deletes by primary key: afterwards the cart table holds
    exactly the rows with another id, and every other table is as it was.
    Removing an item twice is removing it once. *)
Theorem remove_item_deletes_by_id (item : CartItem.t) (db : DB.t) :
  let db' := fst (Cart.remove_item item db) in
  (forall r, In r (DB.cart_items db')
             <-> In r (DB.cart_items db) /\ CartItem.id r <> CartItem.id item) /\
  DB.orders db' = DB.orders db /\
  DB.order_items db' = DB.order_items db /\
  DB.products db' = DB.products db /\
  fst (Cart.remove_item item db') = db'.
Proof.
  unfold Cart.remove_item, Cart.with_cart_items.
  cbn [fst DB.cart_items DB.orders DB.order_items DB.products DB.categories
       DB.product_categories].
  split; [intros r; apply delete_row_spec|].
  repeat split. now rewrite delete_row_twice.
Qed.



(** X3: a change that brings the quantity to zero or below stores no such
    quantity: it deletes the row, as [remove_item] does.  So the handlers of
    the cart page keep every stored quantity positive. *)
Theorem cart_quantities_stay_positive (item : CartItem.t) (change : Z) (db : DB.t) :
  Forall (fun r => (0 < CartItem.quantity r)%Z) (DB.cart_items db) ->
  ((CartItem.quantity item + change <= 0)%Z ->
   Cart.update_quantity item change db = Cart.remove_item item db) /\
  Forall (fun r => (0 < CartItem.quantity r)%Z)
         (DB.cart_items (fst (Cart.update_quantity item change db))) /\
  Forall (fun r => (0 < CartItem.quantity r)%Z)
         (DB.cart_items (fst (Cart.remove_item item db))).
Proof.
  intros Hpos.
  assert (Hrm : Forall (fun r => (0 < CartItem.quantity r)%Z)
                       (DB.cart_items (fst (Cart.remove_item item db)))).
  { cbn. rewrite Forall_forall in *. intros r Hr.
    apply delete_row_spec in Hr. now apply Hpos. }
  unfold Cart.update_quantity.
  destruct (Z.leb_spec (CartItem.quantity item + change) 0) as [Hle|Hgt].
  - repeat split; [assumption | assumption].
  - repeat split; [lia | | assumption].
    destruct (fits_integer _); [|exact Hpos].
    cbn. rewrite Forall_forall in *. intros r' Hr'.
    apply in_map_iff in Hr'. destruct Hr' as (r & <- & Hr).
    destruct (Z.eqb _ _); [cbn; lia | now apply Hpos].
Qed.

Lemma cart_quantities_stay_positive_witness :
  Cart.update_quantity Session.two_jeans (-2) Session.one_row_db
  = Cart.remove_item Session.two_jeans Session.one_row_db.
Proof.
  refine (proj1 (cart_quantities_stay_positive
                   Session.two_jeans (-2) Session.one_row_db _) _).
  - repeat constructor.
  - cbn. lia.
Defined.

(** X4: [update_quantity] starts from the quantity the page showed, not from
    the stored one: running the same handler twice on the same page (a
    second press before the page is redrawn) is running it once. *)
Theorem update_quantity_twice_is_once (item : CartItem.t) (change : Z) (db : DB.t) :
  fst (Cart.update_quantity item change (fst (Cart.update_quantity item change db)))
  = fst (Cart.update_quantity item change db).
Proof.
  unfold Cart.update_quantity, Cart.remove_item.
  destruct (_ <=? 0)%Z; [|destruct (fits_integer _); [|reflexivity]];
    cbn; unfold Cart.with_cart_items; cbn; f_equal.
  - apply delete_row_twice.
  - rewrite map_map. apply map_ext. intros r.
    destruct (Z.eqb_spec (CartItem.id r) (CartItem.id item)) as [E|E]; cbn.
    + now rewrite E, Z.eqb_refl.
    + now apply Z.eqb_neq in E; rewrite E.
Qed.

End CartFacts.

(** ** The checkout page and the commit *)

Module CheckoutFacts.

Import Checkout Invariants PlaceOrderFacts.

(** Loading the products of cart rows: each row comes back with the product
    its [product_id] names. *)
Lemma load_products_some (db : DB.t) (rows : list CartItem.t) :
  forall cart_items,
    load_products db rows = Some cart_items ->
    map CartLine.item cart_items = rows /\
    Forall (fun l => In (CartLine.product l) (DB.products db) /\
                     Product.id (CartLine.product l)
                     = CartItem.product_id (CartLine.item l))
           cart_items.
Proof.
  induction rows as [|row rows IH]; cbn; intros cart_items H.
  - inversion H. split; constructor.
  - unfold load_product in H.
    destruct (find _ (DB.products db)) as [p|] eqn:Hfind; [|discriminate].
    destruct (load_products db rows) as [ls|]; [|discriminate].
    inversion H; subst cart_items. destruct (IH ls eq_refl) as [Hitems Hall].
    cbn. split; [now rewrite Hitems|].
    constructor; [|exact Hall]. cbn.
    apply find_some in Hfind. destruct Hfind as [Hin Hid].
    split; [exact Hin | now apply Z.eqb_eq].
Qed.

(** It fails exactly when some row names a product that is not there. *)
Lemma load_products_none (db : DB.t) (rows : list CartItem.t) :
  load_products db rows = None
  <-> exists row, In row rows /\
                  forall p, In p (DB.products db) ->
                            Product.id p <> CartItem.product_id row.
Proof.
  induction rows as [|row rows IH]; cbn.
  - split; [discriminate | intros (? & [] & _)].
  - unfold load_product.
    destruct (find _ (DB.products db)) as [p|] eqn:Hfind.
    + destruct (load_products db rows) as [ls|].
      * split; [discriminate|]. intros (r & [<-|Hr] & Hno).
        -- apply find_some in Hfind. destruct Hfind as [Hin Hid].
           apply Z.eqb_eq in Hid. now apply Hno in Hin.
        -- destruct IH as [_ IH].
           specialize (IH (ex_intro _ r (conj Hr Hno))). discriminate IH.
      * split; [|reflexivity]. intros _.
        destruct IH as [IH _]. destruct (IH eq_refl) as (r & Hr & Hno).
        exists r. split; [now right | exact Hno].
    + split; [|reflexivity]. intros _. exists row. split; [now left|].
      intros p Hp E. apply (find_none _ _ Hfind) in Hp.
      apply Z.eqb_neq in Hp. contradiction.
Qed.

(** X5: the checkout form is made of the cart rows of the logged-in user and
    of nobody else, in table order, each with the product its [product_id]
    names, and the total it keeps for the button is the total of those
    lines. *)
Theorem checkout_form_is_the_users_cart (current_user : option Z) (db : DB.t)
        (cart_items : list CartLine.t) (total : float) :
  checkout_page current_user db = Some (checkout_form cart_items total) ->
  exists user_id,
    current_user = Some user_id /\
    cart_items <> [] /\
    map CartLine.item cart_items = Cart.cart_items db user_id /\
    Forall (fun l => CartItem.user_id (CartLine.item l) = user_id /\
                     In (CartLine.product l) (DB.products db) /\
                     Product.id (CartLine.product l)
                     = CartItem.product_id (CartLine.item l))
           cart_items /\
    total = cart_total cart_items.
Proof.
  unfold checkout_page. destruct current_user as [user_id|]; [|discriminate].
  destruct (Cart.cart_items db user_id) as [|c rows] eqn:Hrows; [discriminate|].
  destruct (load_products db (c :: rows)) as [ls|] eqn:Hload; [|discriminate].
  intros E. inversion E; subst. exists user_id.
  destruct (load_products_some _ _ Hload) as [Hitems Hprod].
  split; [reflexivity|]. split; [intros ->; discriminate Hitems|].
  split; [congruence|]. split; [|reflexivity].
  - rewrite Forall_forall in *. intros l Hl. split; [|now apply Hprod].
    assert (Hin : In (CartLine.item l) (Cart.cart_items db user_id)).
    { rewrite Hrows, <- Hitems. now apply in_map. }
    unfold Cart.cart_items in Hin. apply filter_In in Hin.
    now apply Z.eqb_eq.
Qed.

Lemma checkout_form_is_the_users_cart_witness :
  map CartLine.item Session.cart0 = Cart.cart_items Session.db0 7.
Proof.
  destruct (@checkout_form_is_the_users_cart (Some 7%Z) Session.db0
              Session.cart0 100%float eq_refl)
    as (user_id & Huser & _ & Hrows & _).
  inversion Huser; subst user_id. exact Hrows.
Defined.

(** X6: for a logged-in user, [checkout_page] raises instead of rendering
    exactly when one of the user's cart rows names a product that is no
    longer in the products table. *)
Theorem checkout_page_raises_on_missing_product (user_id : Z) (db : DB.t) :
  checkout_page (Some user_id) db = None
  <-> exists row, In row (Cart.cart_items db user_id) /\
                  forall p, In p (DB.products db) ->
                            Product.id p <> CartItem.product_id row.
Proof.
  unfold checkout_page.
  destruct (Cart.cart_items db user_id) as [|c rows] eqn:Hrows.
  - split; [discriminate | intros (? & [] & _)].
  - rewrite <- load_products_none.
    destruct (load_products db (c :: rows)); split; congruence.
Qed.

End CheckoutFacts.

Module CommitFacts.

Import Checkout Invariants PlaceOrderFacts.

Lemma filter_filter {A} (f g : A -> bool) (l : list A) :
  filter f (filter g l) = filter (fun x => g x && f x) l.
Proof.
  induction l as [|x l IH]; cbn; [reflexivity|].
  destruct (g x); cbn; [destruct (f x)|]; now rewrite IH.
Qed.

(** The deletions of lines 178-179, all at once: a row stays when its id is
    the id of no line. *)
Lemma clear_cart_filter (cart_items : list CartLine.t) :
  forall table,
    clear_cart cart_items table
    = filter (fun r => negb (existsb (fun l => Z.eqb (CartItem.id r)
                                                    (CartItem.id (CartLine.item l)))
                                     cart_items))
             table.
Proof.
  unfold clear_cart. induction cart_items as [|l ls IH]; intros table; cbn.
  - induction table as [|r table IHt]; cbn; [reflexivity | now rewrite <- IHt].
  - rewrite IH. unfold Cart.delete_row. rewrite filter_filter.
    apply filter_ext. intros r. now rewrite negb_orb.
Qed.



(** The rows that the loop of lines 166-175 appends, column by column. *)
Lemma add_order_items_rows (order_id : Z) (cart_items : list CartLine.t) :
  forall table, exists rows,
    add_order_items order_id cart_items table = table ++ rows /\
    Forall (fun oi => OrderItem.order_id oi = order_id) rows /\
    map (fun oi => (OrderItem.product_id oi, OrderItem.quantity oi, OrderItem.price oi,
                    OrderItem.size oi, OrderItem.color oi)) rows
    = map (fun l => (CartItem.product_id (CartLine.item l),
                     CartItem.quantity (CartLine.item l),
                     Product.current_price (CartLine.product l),
                     CartItem.size (CartLine.item l),
                     CartItem.color (CartLine.item l))) cart_items.
Proof.
  induction cart_items as [|l rest IH]; intros table; cbn [add_order_items].
  - exists []. rewrite app_nil_r. repeat split. constructor.
  - match goal with
    | |- context [table ++ [?x]] => set (row := x)
    end.
    destruct (IH (table ++ [row])) as (rows & Heq & Hall & Hcols).
    exists (row :: rows). rewrite Heq, <- app_assoc. cbn [app map].
    split; [reflexivity|]. split; [constructor; [reflexivity | assumption]|].
    now rewrite Hcols.
Qed.

(** X8: a committed order -- seven fields filled in, a user logged in, an
    order number not in use, a total that is not NaN -- gets one item per
    line of the page, in the order of the lines, each with the line's
    product id, quantity, size and colour and with the product's current
    price as the page had read it; and these are all the items of the
    order. *)
Theorem order_items_mirror_the_lines db0 db user_id uuid_hex first_name last_name
        email phone address city state zip_code payment_method cart_items total :
  DB.orders db0 = [] -> DB.order_items db0 = [] ->
  Store.reachable db0 db ->
  py_all [first_name; last_name; email; address; city; state; zip_code] = true ->
  existsb (fun o => String.eqb (Order.order_number o) (make_order_number uuid_hex))
          (DB.orders db) = false ->
  PrimFloat.is_nan total = false ->
  let db' := fst (place_order (Some user_id) uuid_hex first_name last_name email phone
                              address city state zip_code payment_method
                              cart_items total db) in
  exists order,
    DB.orders db' = DB.orders db ++ [order] /\
    Order.user_id order = user_id /\
    map (fun oi => (OrderItem.product_id oi, OrderItem.quantity oi, OrderItem.price oi,
                    OrderItem.size oi, OrderItem.color oi))
        (order_items_of db' order)
    = map (fun l => (CartItem.product_id (CartLine.item l),
                     CartItem.quantity (CartLine.item l),
                     Product.current_price (CartLine.product l),
                     CartItem.size (CartLine.item l),
                     CartItem.color (CartLine.item l))) cart_items.
Proof.
  intros Ho Hi Hreach Hall Hfresh Hnum db'. subst db'.
  rewrite (place_order_commits _ _ _ _ _ phone _ _ _ _ payment_method
                               cart_items total _ Hall Hfresh Hnum).
  cbn [fst DB.orders]. eexists. split; [reflexivity|]. split; [reflexivity|].
  unfold order_items_of. cbn [DB.order_items Order.id].
  set (new_id := next_id (map Order.id (DB.orders db))).
  destruct (add_order_items_rows new_id cart_items (DB.order_items db))
    as (rows & -> & Hrows & Hcols).
  destruct (OrderTotals.reachable_consistent
              (OrderTotals.consistent_initial db0 Ho Hi) Hreach) as [_ Hown].
  rewrite filter_app, (OrderTotals.filter_none _ (l := DB.order_items db)),
    (OrderTotals.filter_all _ (l := rows)).
  - exact Hcols.
  - eapply Forall_impl; [|exact Hrows]. cbn beta. intros oi ->. apply Z.eqb_refl.
  - apply Forall_forall. intros oi Hoi. apply Z.eqb_neq. intros E.
    apply Hown in Hoi. rewrite E in Hoi. exact (next_id_fresh _ Hoi).
Qed.

Lemma order_items_mirror_the_lines_witness :
  exists order,
    DB.orders Session.db1 = DB.orders Session.db0 ++ [order] /\
    Order.user_id order = 7%Z /\
    map (fun oi => (OrderItem.product_id oi, OrderItem.quantity oi, OrderItem.price oi,
                    OrderItem.size oi, OrderItem.color oi))
        (order_items_of Session.db1 order)
    = map (fun l => (CartItem.product_id (CartLine.item l),
                     CartItem.quantity (CartLine.item l),
                     Product.current_price (CartLine.product l),
                     CartItem.size (CartLine.item l),
                     CartItem.color (CartLine.item l))) Session.cart0.
Proof.
  exact (@order_items_mirror_the_lines Session.db0 Session.db0 7 Session.uuid1
           "Ada" "Lovelace" "ada@example.org" "" "12 St James Square" "London"
           "LDN" "SW1Y 4JH" "Credit Card" Session.cart0 (with_tax 100%float)
           eq_refl eq_refl (Store.reach_refl _) eq_refl eq_refl eq_refl).
Defined.

(** X9: [place_order] is all or nothing.  Either it writes nothing and ends
    with one negative notice, or it shows the success notification and has
    appended exactly one order -- confirmed, paid, for the logged-in user,
    with the total it was handed (a zero as 0.0) and the address put
    together from the form -- leaving categories, products and their
    links as they were.  The second case is the case of a submission with
    the seven fields filled in, a user logged in, an order number not in
    use and a total that is not NaN. *)
Theorem place_order_all_or_nothing current_user uuid_hex first_name last_name email
        phone address city state zip_code payment_method cart_items total db :
  let r := place_order current_user uuid_hex first_name last_name email phone
                       address city state zip_code payment_method
                       cart_items total db in
  let passes :=
    py_all [first_name; last_name; email; address; city; state; zip_code] = true /\
    (exists user_id, current_user = Some user_id) /\
    ~ In (make_order_number uuid_hex) (order_numbers db) /\
    PrimFloat.is_nan total = false in
  (~ passes /\ fst r = db /\
   (snd r = [validation_notice] \/ snd r = [error_notice]))
  \/
  (passes /\
   snd r = success_events (make_order_number uuid_hex) /\
   DB.categories (fst r) = DB.categories db /\
   DB.products (fst r) = DB.products db /\
   DB.product_categories (fst r) = DB.product_categories db /\
   exists order,
     DB.orders (fst r) = DB.orders db ++ [order] /\
     current_user = Some (Order.user_id order) /\
     Order.order_number order = make_order_number uuid_hex /\
     Order.status order = "confirmed" /\
     Order.payment_status order = "paid" /\
     Order.total_amount order = (if PrimFloat.eqb total 0 then 0%float else total) /\
     Order.payment_method order = payment_method /\
     Order.shipping_address order
     = (address ++ ", " ++ city ++ ", " ++ state ++ " " ++ zip_code)%string).
Proof.
  intros r passes. subst r passes. unfold place_order.
  destruct (py_all _) eqn:Hall; cbn [negb].
  2:{ left. split; [intros (H & _); discriminate|]. split; [reflexivity | now left]. }
  destruct current_user as [user_id|].
  2:{ left. split; [intros (_ & (u & H) & _); discriminate|].
      split; [reflexivity | now right]. }
  destruct (existsb _ (DB.orders db)) eqn:Hdup.
  { left. split.
    - intros (_ & _ & Hfresh & _). apply Hfresh.
      now apply OrderNumberClaims.number_in_use.
    - split; [reflexivity | now right]. }
  unfold sqlite_real. destruct (PrimFloat.is_nan total) eqn:Hnan.
  - left. split; [intros (_ & _ & _ & H); discriminate|].
    split; [reflexivity | now right].
  - right. split.
    + split; [reflexivity|]. split; [now exists user_id|]. split; [|reflexivity].
      intros Hin. apply OrderNumberClaims.number_in_use in Hin. congruence.
    + cbn. repeat split. eexists. repeat split.
Qed.

(** Every row the loop appends gets an id that is not in the table yet. *)
Lemma add_order_items_fresh_ids (order_id : Z) (cart_items : list CartLine.t) :
  forall table,
    NoDup (map OrderItem.id table) ->
    NoDup (map OrderItem.id (add_order_items order_id cart_items table)).
Proof.
  induction cart_items as [|l rest IH]; intros table Hnd; cbn [add_order_items].
  - exact Hnd.
  - apply IH. rewrite map_app. cbn [map OrderItem.id].
    apply OrderNumberClaims.NoDup_append_one; [exact Hnd | apply next_id_fresh].
Qed.

Lemma place_order_keeps_ids_unique current_user uuid_hex first_name last_name email
      phone address city state zip_code payment_method cart_items total db :
  NoDup (map Order.id (DB.orders db)) /\ NoDup (map OrderItem.id (DB.order_items db)) ->
  let db' := fst (place_order current_user uuid_hex first_name last_name email phone
                              address city state zip_code payment_method
                              cart_items total db) in
  NoDup (map Order.id (DB.orders db')) /\ NoDup (map OrderItem.id (DB.order_items db')).
Proof.
  intros [Ho Hi] db'. subst db'.
  destruct (place_order_outcome current_user uuid_hex first_name last_name email
              phone address city state zip_code payment_method cart_items total db)
    as [events | user_id _ _ _ order]; [now split|].
  subst order. cbn [fst DB.orders DB.order_items Order.id]. split.
  - rewrite map_app. cbn [map Order.id].
    apply OrderNumberClaims.NoDup_append_one; [exact Ho | apply next_id_fresh].
  - now apply add_order_items_fresh_ids.
Qed.

Lemma step_keeps_ids_unique (db db' : DB.t) :
  Store.step db db' ->
  NoDup (map Order.id (DB.orders db)) /\ NoDup (map OrderItem.id (DB.order_items db)) ->
  NoDup (map Order.id (DB.orders db')) /\ NoDup (map OrderItem.id (DB.order_items db')).
Proof.
  intros Hstep Hnd.
  destruct Hstep as [db0 user0 pg f cu uuid r _ Hpress | item change | | | ].
  - destruct pg as [| |cart_items total]; try discriminate.
    cbn in Hpress. inversion Hpress; subst r.
    now apply place_order_keeps_ids_unique.
  - unfold Cart.update_quantity, Cart.remove_item.
    destruct (_ <=? 0)%Z; [|destruct (fits_integer _)]; exact Hnd.
  - exact Hnd.
  - exact Hnd.
  - exact Hnd.
Qed.

(** X10: primary keys.  In every database reached from one without orders,
    the ids of the orders are pairwise distinct, so are the ids of the
    order items, and every order item refers to an order that exists. *)
Theorem primary_keys_stay_unique (db0 db : DB.t) :
  DB.orders db0 = [] -> DB.order_items db0 = [] ->
  Store.reachable db0 db ->
  NoDup (map Order.id (DB.orders db)) /\
  NoDup (map OrderItem.id (DB.order_items db)) /\
  forall oi, In oi (DB.order_items db) ->
             exists o, In o (DB.orders db) /\ Order.id o = OrderItem.order_id oi.
Proof.
  intros Ho Hi Hreach.
  assert (Hnd : NoDup (map Order.id (DB.orders db)) /\
                NoDup (map OrderItem.id (DB.order_items db))).
  { induction Hreach as [|db db' _ IH Hstep].
    - rewrite Ho, Hi. split; constructor.
    - exact (step_keeps_ids_unique Hstep IH). }
  destruct Hnd as [H1 H2]. split; [exact H1|]. split; [exact H2|].
  destruct (OrderTotals.reachable_consistent
              (OrderTotals.consistent_initial db0 Ho Hi) Hreach) as [_ Hown].
  intros oi Hoi. apply Hown in Hoi. apply in_map_iff in Hoi.
  destruct Hoi as (o & Hid & Hin). now exists o.
Qed.

Lemma primary_keys_stay_unique_witness :
  NoDup (map Order.id (DB.orders Session.db2)) /\
  NoDup (map OrderItem.id (DB.order_items Session.db2)).
Proof.
  destruct (@primary_keys_stay_unique Session.db0 Session.db2 eq_refl eq_refl
              SessionFacts.db2_reachable) as (H1 & H2 & _).
  split; assumption.
Defined.

End CommitFacts.

(** ** Catalogue listings *)

Module CatalogFacts.



(** X12: a slug that no category has, and the empty slug, give the listing of
    all active products, the same as no slug at all. *)
Theorem unknown_slug_lists_everything (db : DB.t) (slug : string) :
  slug = "" \/ (forall c, In c (DB.categories db) -> Category.slug c <> slug) ->
  Catalog.products_page db (Some slug) = Catalog.products_page db None.
Proof.
  intros [-> | Hnone]; unfold Catalog.products_page; [reflexivity|].
  destruct (truthy_str slug); [|reflexivity].
  destruct (find _ (DB.categories db)) as [c|] eqn:Hfind; [|reflexivity].
  apply find_some in Hfind. destruct Hfind as [Hin Heq].
  apply String.eqb_eq in Heq. now apply Hnone in Hin.
Qed.

Lemma unknown_slug_lists_everything_witness :
  Catalog.products_page Session.catalog_db (Some "shoes")
  = Catalog.products_page Session.catalog_db None.
Proof.
  apply unknown_slug_lists_everything. right.
  intros c [<-|[]]. discriminate.
Defined.

Lemma firstn_filter_facts {A} (f : A -> bool) (n : nat) (l : list A) :
  List.length (firstn n (filter f l)) <= n /\
  forall x, In x (firstn n (filter f l)) -> In x l /\ f x = true.
Proof.
  split.
  - apply firstn_le_length.
  - intros x Hx. assert (Hin : In x (filter f l)).
    { rewrite <- (firstn_skipn n (filter f l)). apply in_or_app. now left. }
    now apply filter_In in Hin.
Qed.

(** X13: the home page shows at most eight products, all of them featured
    products of the table, and at most six categories, all of them active
    categories of the table. *)
Theorem home_page_lists_are_bounded (db : DB.t) :
  List.length (Catalog.featured_products db) <= 8 /\
  (forall p, In p (Catalog.featured_products db) ->
             In p (DB.products db) /\ Product.is_featured p = true) /\
  List.length (Catalog.home_categories db) <= 6 /\
  (forall c, In c (Catalog.home_categories db) ->
             In c (DB.categories db) /\ Category.is_active c = true).
Proof.
  unfold Catalog.featured_products, Catalog.home_categories.
  destruct (firstn_filter_facts Product.is_featured 8 (DB.products db)).
  destruct (firstn_filter_facts Category.is_active 6 (DB.categories db)).
  repeat split; try assumption; try (now apply H0); now apply H2.
Qed.

End CatalogFacts.

(** ** Search and product page *)

Module ProductsFacts.

Lemma lower_upper_ascii (c : ascii) : lower_ascii (upper_ascii c) = lower_ascii c.
Proof. destruct c as [[] [] [] [] [] [] [] []]; reflexivity. Qed.

Lemma lower_lower_ascii (c : ascii) : lower_ascii (lower_ascii c) = lower_ascii c.
Proof. destruct c as [[] [] [] [] [] [] [] []]; reflexivity. Qed.

Lemma lower_upper (s : string) : lower (upper s) = lower s.
Proof. induction s as [|c s IH]; cbn; [reflexivity|]. now rewrite lower_upper_ascii, IH. Qed.

Lemma lower_lower (s : string) : lower (lower s) = lower s.
Proof. induction s as [|c s IH]; cbn; [reflexivity|]. now rewrite lower_lower_ascii, IH. Qed.

Lemma truthy_upper (s : string) : truthy_str (upper s) = truthy_str s.
Proof. destruct s; reflexivity. Qed.

Lemma truthy_lower (s : string) : truthy_str (lower s) = truthy_str s.
Proof. destruct s; reflexivity. Qed.

(** X14: the search never makes a product up, never drops a match and never
    reorders: with an empty term it returns the whole list; with any other
    term the list it returns is the list it was given with the products
    struck out whose lower-cased name does not contain the lower-cased
    term and whose description is missing, empty or does not contain it
    either. *)
Theorem search_returns_the_matches (search_term : string) (all_products : list Product.t) :
  Products.filtered "" all_products = all_products /\
  (search_term <> "" ->
   Products.filtered search_term all_products
   = filter (fun p =>
               occurs_in (lower search_term) (lower (Product.name p))
               || match Product.description p with
                  | Some d => negb (String.eqb d "")
                              && occurs_in (lower search_term) (lower d)
                  | None => false
                  end)
            all_products) /\
  (forall p, In p (Products.filtered search_term all_products) -> In p all_products) /\
  (search_term <> "" ->
   forall p, In p (Products.filtered search_term all_products)
             <-> In p all_products /\
                 (occurs_in (lower search_term) (lower (Product.name p)) = true \/
                  exists d, Product.description p = Some d /\ d <> "" /\
                            occurs_in (lower search_term) (lower d) = true)).
Proof.
  split; [reflexivity|].
  assert (Hlist : search_term <> "" ->
                  Products.filtered search_term all_products
                  = filter (Products.matches search_term) all_products).
  { intros Hterm. unfold Products.filtered.
    assert (Ht : truthy_str search_term = true).
    { unfold truthy_str. apply negb_true_iff. now apply String.eqb_neq. }
    now rewrite Ht. }
  split; [exact Hlist|]. split.
  - unfold Products.filtered. destruct (negb _); [trivial|].
    intros p Hp. now apply filter_In in Hp.
  - intros Hterm p. rewrite (Hlist Hterm), filter_In. apply and_iff_compat_l.
    unfold Products.matches. rewrite orb_true_iff.
    destruct (Product.description p) as [d|].
    + rewrite andb_true_iff. split.
      * intros [H|[Hd H]]; [now left|]. right. exists d.
        split; [reflexivity|]. split; [|exact H].
        intros ->. discriminate Hd.
      * intros [H|(d' & E & Hd & H)]; [now left|]. inversion E; subst d'.
        right. split; [|exact H].
        unfold truthy_str. apply negb_true_iff. now apply String.eqb_neq.
    + split.
      * intros [H|H]; [now left | discriminate].
      * intros [H|(d' & E & _)]; [now left | discriminate].
Qed.

Lemma search_returns_the_matches_witness :
  Products.filtered "HOODIE" Examples.shelf = [Examples.hoodie] /\
  In Examples.bag (Products.filtered "everyday" Examples.shelf).
Proof.
  split; [reflexivity|].
  destruct (search_returns_the_matches "everyday" Examples.shelf) as (_ & _ & _ & H).
  apply H; [discriminate|]. split.
  - cbn. auto.
  - right. eexists. split; [reflexivity|]. split; [discriminate | reflexivity].
Defined.

(** X15: the search does not depend on the letter case of the term: the
    term, its upper-case form and its lower-case form select the same
    products. *)
Theorem search_ignores_case_of_term (search_term : string) (all_products : list Product.t) :
  Products.filtered (upper search_term) all_products
  = Products.filtered search_term all_products /\
  Products.filtered (lower search_term) all_products
  = Products.filtered search_term all_products.
Proof.
  unfold Products.filtered. rewrite truthy_upper, truthy_lower.
  destruct (negb _); [now split|].
  split; apply filter_ext; intros p; unfold Products.matches.
  - now rewrite lower_upper.
  - now rewrite lower_lower.
Qed.

(** X16: the product page.  It is the "not found" page exactly when no
    product has the id asked for.  Otherwise it shows a product of the
    table with that id -- active or not -- with the price that checkout
    charges, [current_price], in large type; the list price is struck
    through exactly when that price is the sale price; and the buttons to
    buy are there exactly when the stock is positive. *)
Theorem product_page_shows_the_product (db : DB.t) (product_id : Z) :
  (Products.product_detail_page db product_id = Products.product_not_found
   <-> forall p, In p (DB.products db) -> Product.id p <> product_id) /\
  forall product shown struck label can_buy,
    Products.product_detail_page db product_id
    = Products.product_detail product shown struck label can_buy ->
    In product (DB.products db) /\
    Product.id product = product_id /\
    shown = Product.current_price product /\
    (struck = None \/
     struck = Some (Product.price product) /\ Product.sale_price product = Some shown) /\
    can_buy = (0 <? Product.stock_quantity product)%Z /\
    (can_buy = false -> label = "Out of stock").
Proof.
  unfold Products.product_detail_page.
  destruct (find _ (DB.products db)) as [p|] eqn:Hfind.
  - apply find_some in Hfind. destruct Hfind as [Hin Hid]. apply Z.eqb_eq in Hid.
    split.
    + split.
      * destruct (Product.sale_price p) as [s|]; [destruct (truthy_float s)|];
          discriminate.
      * intros Hno. now apply Hno in Hin.
    + intros product shown struck label can_buy.
      unfold Product.current_price.
      destruct (Product.sale_price p) as [s|] eqn:Hs;
        [destruct (truthy_float s) eqn:Ht|];
        intros E; inversion E; subst; rewrite ?Hs, ?Ht;
        repeat split; auto;
        intros Hbuy; now rewrite Hbuy.
  - split; [|discriminate]. split; [|reflexivity].
    intros _ p Hp E. apply (find_none _ _ Hfind) in Hp.
    apply Z.eqb_neq in Hp. contradiction.
Qed.

Lemma product_page_shows_the_product_witness :
  Product.id Examples.bag = 6%Z /\
  Examples.bag.(Product.stock_quantity) = 0%Z /\
  exists shown struck label,
    Products.product_detail_page Examples.shelf_db 6
    = Products.product_detail Examples.bag shown struck label false.
Proof.
  assert (E : Products.product_detail_page Examples.shelf_db 6
              = Products.product_detail Examples.bag 80%float None "Out of stock" false)
    by reflexivity.
  destruct (proj2 (product_page_shows_the_product Examples.shelf_db 6) _ _ _ _ _ E)
    as (_ & Hid & _).
  split; [exact Hid|]. split; [reflexivity|]. now eexists _, _, _.
Defined.

End ProductsFacts.

(** ** Sessions *)

Module SessionHandlerFacts.

Import Profile.

Lemma step_keeps_other_managers (m m' : managers) :
  step m m' ->
  main_auth m' = main_auth m /\
  cart_auth m' = cart_auth m /\
  checkout_auth m' = checkout_auth m.
Proof.
  intros [username password|]; unfold login, logout;
    [destruct (_ && _)|]; repeat split.
Qed.

(** X17: logging in on the profile page does not log the user in anywhere
    else.  [login] and [logout] of [profile.py] write to the
    [AuthManager] of [profile.py]; the instances of [cart.py],
    [checkout.py] and [app/main.py] are other objects, and after any
    sequence of logins and logouts they are as they were when the process
    started, with no current user.  So [/checkout] renders the login
    prompt, whatever the database holds. *)
Theorem profile_login_is_not_seen_by_checkout (m : managers) :
  reachable m ->
  AuthManager.is_authenticated (checkout_auth m) = false /\
  AuthManager.is_authenticated (cart_auth m) = false /\
  AuthManager.is_authenticated (main_auth m) = false /\
  forall db, Checkout.checkout_page (user_id_of (checkout_auth m)) db
             = Some Checkout.login_prompt.
Proof.
  intros Hreach.
  assert (H : main_auth m = AuthManager.init /\
              cart_auth m = AuthManager.init /\
              checkout_auth m = AuthManager.init).
  { induction Hreach as [|m m' _ IH Hstep]; [repeat split|].
    destruct (step_keeps_other_managers Hstep) as (-> & -> & ->). exact IH. }
  destruct H as (-> & -> & ->). repeat split.
Qed.

Lemma profile_login_is_not_seen_by_checkout_witness :
  AuthManager.is_authenticated
    (profile_auth (fst (login "demo" "password" started))) = true /\
  Checkout.checkout_page
    (user_id_of (checkout_auth (fst (login "demo" "password" started))))
    Session.db0
  = Some Checkout.login_prompt.
Proof.
  split; [reflexivity|].
  refine (proj2 (proj2 (proj2 (profile_login_is_not_seen_by_checkout
                                 (m := fst (login "demo" "password" started)) _)))
                Session.db0).
  eapply reach_step; [apply reach_started | apply step_login].
Defined.

(** X18: [login] accepts one pair of credentials.  The profile page is
    logged in after [login] exactly when the pair is "demo" and "password"
    -- the current user is then the made-up user 1 -- or when it was
    logged in before: a refused login leaves the session as it was. *)
Theorem login_accepts_demo_only (username password : string) (m : managers) :
  let m' := fst (login username password m) in
  (username = "demo" /\ password = "password" ->
   AuthManager.current_user (profile_auth m') = Some demo_user) /\
  (~ (username = "demo" /\ password = "password") ->
   login username password m = (m, [notify "Invalid credentials" "negative"])) /\
  (AuthManager.is_authenticated (profile_auth m') = true
   <-> (username = "demo" /\ password = "password")
       \/ AuthManager.is_authenticated (profile_auth m) = true).
Proof.
  unfold login.
  destruct (String.eqb_spec username "demo") as [Hu|Hu];
    destruct (String.eqb_spec password "password") as [Hp|Hp]; cbn;
    repeat split; try tauto; try (intros [[? ?]|?]; tauto); auto.
Qed.

Lemma login_accepts_demo_only_witness :
  AuthManager.current_user (profile_auth (fst (login "demo" "password" started)))
  = Some demo_user /\
  login "demo" "letmein" started = (started, [notify "Invalid credentials" "negative"]).
Proof.
  split.
  - apply (proj1 (login_accepts_demo_only "demo" "password" started)).
    split; reflexivity.
  - apply (proj1 (proj2 (login_accepts_demo_only "demo" "letmein" started))).
    intros [_ H]. discriminate H.
Defined.

End SessionHandlerFacts.

(** ** Image selection *)

Module AssetsFacts.

Import Assets.

Lemma resolve_is_a_category (category : string) :
  has_category (resolve category) = true.
Proof.
  unfold resolve. destruct (has_category category) eqn:H; [exact H | reflexivity].
Qed.

(** Every category of the table has a keyword and a size. *)
Lemma category_data_of_category (category : string) :
  has_category category = true ->
  exists keyword keywords size sizes,
    category_data category = Some (keyword :: keywords, size :: sizes).
Proof.
  unfold has_category, category_data, FASHION_CATEGORIES.
  cbn [existsb find fst].
  repeat match goal with
         | |- context [String.eqb ?a category] =>
             destruct (String.eqb a category);
             [intros _; cbn; do 4 eexists; reflexivity|]
         end.
  cbn. discriminate.
Qed.

Lemma collect_all (f : nat -> option Image.t) (P : Image.t -> Prop) (indices : list nat) :
  (forall i, exists image, f i = Some image /\ P image) ->
  exists images,
    collect f indices = Some images /\
    List.length images = List.length indices /\
    Forall P images.
Proof.
  intros Hf. induction indices as [|i rest (images & Hc & Hlen & Hall)]; cbn.
  - exists []. repeat split. constructor.
  - destruct (Hf i) as (image & -> & Hp). rewrite Hc.
    exists (image :: images). cbn. repeat split; [now rewrite Hlen|].
    now constructor.
Qed.

Section Hashes.

Variable md5_hexdigest : string -> string.
Variable py_hash : string -> Z.

(** X19: [get_fashion_images] never raises and returns one image for each
    index of [range(count)] -- none for a count of zero or less.  Every
    image carries the category asked for when the table has it and "hero"
    when it has not, and that category's first size. *)
Theorem get_fashion_images_count (category : string) (count : Z) :
  exists images,
    get_fashion_images md5_hexdigest py_hash category count = Some images /\
    List.length images = Z.to_nat count /\
    Forall (fun image =>
              Image.category image = (if has_category category then category else "hero") /\
              exists keywords sizes,
                category_data (Image.category image)
                = Some (keywords, Image.size image :: sizes))
           images.
Proof.
  unfold get_fashion_images. fold (resolve category).
  destruct (category_data_of_category _ (resolve_is_a_category category))
    as (k & ks & s & ss & Hdata).
  rewrite Hdata.
  destruct (collect_all
              (fashion_image md5_hexdigest py_hash (resolve category) (k :: ks) (s :: ss))
              (fun image => Image.category image = resolve category /\
                            Image.size image = s)
              (seq 0 (Z.to_nat count)))
    as (images & Hc & Hlen & Hall).
  { intros i. eexists. split; [reflexivity|]. split; reflexivity. }
  exists images. split; [exact Hc|]. split; [now rewrite Hlen, length_seq|].
  eapply Forall_impl; [|exact Hall]. cbn beta. intros image [Hcat Hsize].
  split; [exact Hcat|]. exists (k :: ks), ss. now rewrite Hcat, Hsize.
Qed.

(** X20: [get_product_images] never raises either: whatever the product is
    called, it returns [count] images of one category of the table, so
    the first of the four images that the product page asks for is always
    there. *)
Theorem get_product_images_count (product_name category : string) (count : Z) :
  exists images,
    get_product_images md5_hexdigest py_hash product_name category count = Some images /\
    List.length images = Z.to_nat count /\
    (exists c, has_category c = true /\
               Forall (fun image => Image.category image = c) images) /\
    ((0 < count)%Z -> exists first rest, images = first :: rest).
Proof.
  unfold get_product_images.
  match goal with
  | |- context [get_fashion_images _ _ ?c count] => set (img_category := c)
  end.
  destruct (get_fashion_images_count img_category count) as (images & Hget & Hlen & Hall).
  exists images. split; [exact Hget|]. split; [exact Hlen|]. split.
  - exists (resolve img_category). split; [apply resolve_is_a_category|].
    eapply Forall_impl; [|exact Hall]. cbn beta. now intros image [-> _].
  - intros Hpos. destruct images as [|first rest]; [|now eexists _, _].
    cbn in Hlen. lia.
Qed.

(** X21: a product whose name holds none of the words of the five
    categories gets the images of the category passed in -- and, as
    "fashion", the default, is no category of the table, the images of
    the hero banner. *)
Theorem unmatched_product_gets_hero_images (product_name category : string) (count : Z) :
  any_word_in ["dress"; "blouse"; "skirt"; "women"; "shirt"; "suit"; "men"; "male";
               "kids"; "child"; "children"; "bag"; "jewelry"; "watch"; "accessory";
               "shoe"; "sneaker"; "boot"; "heel"]
              (lower product_name) = false ->
  get_product_images md5_hexdigest py_hash product_name category count
  = get_fashion_images md5_hexdigest py_hash category count /\
  get_product_images md5_hexdigest py_hash product_name "fashion" count
  = get_hero_images md5_hexdigest py_hash count.
Proof.
  unfold any_word_in. cbn [existsb]. intros H.
  repeat (apply orb_false_elim in H; destruct H as [? H]).
  unfold get_product_images, any_word_in. cbn [existsb].
  repeat match goal with
         | E : occurs_in _ _ = false |- _ => rewrite E; clear E
         end.
  cbn [orb]. split; reflexivity.
Qed.

(** X22: [get_category_image] never raises and never gets to its
    placeholder: it returns the first image of the category whose key is
    the lower-cased name, or of "hero" when the table has no such key. *)
Theorem get_category_image_is_never_the_placeholder (category_name : string) :
  exists image,
    get_category_image md5_hexdigest py_hash category_name = Some image /\
    get_fashion_images md5_hexdigest py_hash (lower category_name) 1 = Some [image] /\
    Image.category image
    = (if has_category (lower category_name) then lower category_name else "hero") /\
    Image.category image <> "placeholder".
Proof.
  unfold get_category_image.
  destruct (get_fashion_images_count (lower category_name) 1)
    as (images & -> & Hlen & Hall).
  destruct images as [|image [|? ?]]; try discriminate Hlen.
  exists image. split; [reflexivity|]. split; [reflexivity|].
  inversion Hall as [|? ? [Hcat _] _]; subst. split; [exact Hcat|].
  intros E. pose proof (resolve_is_a_category (lower category_name)) as Hkey.
  unfold resolve in Hkey. rewrite <- Hcat, E in Hkey. discriminate Hkey.
Qed.

End Hashes.

Lemma get_product_images_count_witness :
  exists first rest,
    get_product_images Examples.md5_stub Examples.hash_stub
                       "Leather Crossbody Bag" "fashion" 4
    = Some (first :: rest).
Proof.
  destruct (get_product_images_count Examples.md5_stub Examples.hash_stub
              "Leather Crossbody Bag" "fashion" 4)
    as (images & Hget & _ & _ & Hfirst).
  destruct Hfirst as (first & rest & ->); [reflexivity|].
  now exists first, rest.
Defined.

Lemma unmatched_product_gets_hero_images_witness :
  get_product_images Examples.md5_stub Examples.hash_stub "Denim Skinny Jeans" "fashion" 4
  = get_hero_images Examples.md5_stub Examples.hash_stub 4.
Proof.
  apply (unmatched_product_gets_hero_images Examples.md5_stub Examples.hash_stub
           "Denim Skinny Jeans" "fashion" 4).
  reflexivity.
Defined.

End AssetsFacts.


(** ** What the pages never do *)

Module StoreFacts.

Import Checkout Invariants PlaceOrderFacts.

Lemma shrinks_refl (table : list CartItem.t) : shrinks table table.
Proof. split; [reflexivity|]. intros r Hr. now apply in_map. Qed.

Lemma shrinks_trans (a b c : list CartItem.t) :
  shrinks a b -> shrinks b c -> shrinks a c.
Proof.
  intros [Hl1 H1] [Hl2 H2]. split; [lia|].
  intros r Hr. apply H2 in Hr. apply in_map_iff in Hr.
  destruct Hr as (r' & <- & Hr'). now apply H1.
Qed.

Lemma shrinks_filter (f : CartItem.t -> bool) (table : list CartItem.t) :
  shrinks table (filter f table).
Proof.
  split; [apply filter_length_le|].
  intros r Hr. apply filter_In in Hr. apply in_map. tauto.
Qed.

Lemma place_order_shrinks_cart current_user uuid_hex first_name last_name email
      phone address city state zip_code payment_method cart_items total db :
  shrinks (DB.cart_items db)
          (DB.cart_items
             (fst (place_order current_user uuid_hex first_name last_name email phone
                               address city state zip_code payment_method
                               cart_items total db))).
Proof.
  destruct (place_order_outcome current_user uuid_hex first_name last_name email
              phone address city state zip_code payment_method cart_items total db)
    as [events | user_id _ _ _ order].
  - apply shrinks_refl.
  - cbn [fst DB.cart_items]. rewrite CommitFacts.clear_cart_filter.
    apply shrinks_filter.
Qed.

Lemma step_shrinks_cart (db db' : DB.t) :
  Store.step db db' -> shrinks (DB.cart_items db) (DB.cart_items db').
Proof.
  intros Hstep.
  destruct Hstep as [db0 user0 pg f cu uuid r _ Hpress | item change | item | | ].
  - destruct pg as [| |cart_items total]; try discriminate.
    cbn in Hpress. inversion Hpress; subst r.
    apply place_order_shrinks_cart.
  - unfold Cart.update_quantity, Cart.remove_item.
    destruct (_ <=? 0)%Z; [|destruct (fits_integer _); [|apply shrinks_refl]];
      cbn [fst Cart.with_cart_items DB.cart_items].
    + apply shrinks_filter.
    + split; [now rewrite length_map|].
      intros r' Hr'. apply in_map_iff in Hr'. destruct Hr' as (r & <- & Hr).
      destruct (Z.eqb _ _); cbn; now apply in_map with (f := CartItem.id) in Hr.
  - apply shrinks_filter.
  - apply shrinks_refl.
  - apply shrinks_refl.
Qed.

(** X23: no handler of these pages ever adds a row to the cart.  Along any
    run of the store -- orders placed, quantities changed, items removed,
    "add to cart" pressed, products edited -- the cart table never gets
    longer and never holds a row whose id it did not hold at the start. *)
Theorem cart_never_gains_a_row (db0 db : DB.t) :
  Store.reachable db0 db ->
  List.length (DB.cart_items db) <= List.length (DB.cart_items db0) /\
  forall r, In r (DB.cart_items db) ->
            In (CartItem.id r) (map CartItem.id (DB.cart_items db0)).
Proof.
  intros Hreach. change (shrinks (DB.cart_items db0) (DB.cart_items db)).
  induction Hreach as [|db db' _ IH Hstep]; [apply shrinks_refl|].
  exact (shrinks_trans IH (step_shrinks_cart Hstep)).
Qed.

Lemma cart_never_gains_a_row_witness :
  List.length (DB.cart_items Session.db2) <= List.length (DB.cart_items Session.db0).
Proof.
  exact (proj1 (cart_never_gains_a_row SessionFacts.db2_reachable)).
Defined.

End StoreFacts.

(** ** Order numbers and prices at the time of the click *)

Module OrderFacts.

Import Checkout Invariants PlaceOrderFacts.

Lemma upper_upper_ascii (c : ascii) : upper_ascii (upper_ascii c) = upper_ascii c.
Proof. destruct c as [[] [] [] [] [] [] [] []]; reflexivity. Qed.

Lemma upper_upper (s : string) : upper (upper s) = upper s.
Proof. induction s as [|c s IH]; cbn; [reflexivity|]. now rewrite upper_upper_ascii, IH. Qed.

Lemma length_upper (s : string) : String.length (upper s) = String.length s.
Proof. induction s as [|c s IH]; cbn; [reflexivity|]. now rewrite IH. Qed.

Lemma length_prefix (n : nat) :
  forall s, String.length (substring 0 n s) = Nat.min n (String.length s).
Proof.
  induction n as [|n IH]; intros [|c s]; cbn; try reflexivity. now rewrite IH.
Qed.

Lemma get_upper (s : string) :
  forall i, String.get i (upper s) = option_map upper_ascii (String.get i s).
Proof.
  induction s as [|c s IH]; intros [|i]; cbn; try reflexivity. apply IH.
Qed.

(** X24: an order number is "ORD-" followed by the first eight characters
    of the UUID's hex string, each in upper case, and by nothing else: its
    digit at each of the positions 0 to 7 is the upper-cased character of
    the UUID at that position, and it has no further position.  So it is
    twelve characters long for a UUID of eight digits or more, it is
    unchanged by upper-casing, and two UUIDs that agree on their first
    eight digits give the same number. *)
Theorem order_number_format (uuid_hex : string) :
  exists digits,
    make_order_number uuid_hex = ("ORD-" ++ digits)%string /\
    (forall i, i < 8 ->
               String.get i digits = option_map upper_ascii (String.get i uuid_hex)) /\
    (forall i, 8 <= i -> String.get i digits = None) /\
    String.length digits = Nat.min 8 (String.length uuid_hex) /\
    upper (make_order_number uuid_hex) = make_order_number uuid_hex /\
    forall other, substring 0 8 other = substring 0 8 uuid_hex ->
                  make_order_number other = make_order_number uuid_hex.
Proof.
  exists (upper (substring 0 8 uuid_hex)). unfold make_order_number.
  split; [reflexivity|]. split; [|split; [|split; [|split]]].
  - intros i Hi. rewrite get_upper, substring_correct1 by exact Hi.
    now rewrite Nat.add_0_r.
  - intros i Hi. rewrite get_upper, substring_correct2 by exact Hi. reflexivity.
  - now rewrite length_upper, length_prefix.
  - cbn [append upper]. now rewrite upper_upper.
  - now intros other ->.
Qed.

Lemma order_number_format_witness :
  make_order_number Session.uuid2 = make_order_number Session.uuid1.
Proof.
  destruct (order_number_format Session.uuid1) as (digits & _ & _ & _ & _ & _ & Hsame).
  apply Hsame. reflexivity.
Defined.

(** X25: [place_order] reads nothing from the products table.  What it
    stores and what it shows is the same whether the products are, when
    the button is pressed, as the page saw them or have been re-priced,
    sold out or deleted since: the order is priced from the page. *)
Theorem place_order_reads_no_product current_user uuid_hex first_name last_name email
        phone address city state zip_code payment_method cart_items total db products :
  place_order current_user uuid_hex first_name last_name email phone
              address city state zip_code payment_method cart_items total
              (Store.with_products db products)
  = (Store.with_products
       (fst (place_order current_user uuid_hex first_name last_name email phone
                         address city state zip_code payment_method
                         cart_items total db))
       products,
     snd (place_order current_user uuid_hex first_name last_name email phone
                      address city state zip_code payment_method
                      cart_items total db)).
Proof.
  unfold place_order, Store.with_products.
  cbn [DB.orders DB.order_items DB.cart_items DB.categories DB.products
       DB.product_categories].
  destruct (negb _); [reflexivity|].
  destruct current_user; [|reflexivity].
  destruct (existsb _ _); [reflexivity|].
  destruct (sqlite_real total); reflexivity.
Qed.

End OrderFacts.
